(** * QuickPID: a shallow embedding of the controller and its specification

    The development follows [src/QuickPID.cpp] (version 3.1.1 with an
    injectable microsecond clock) and the class declaration of [QuickPID.h].

    - C [float] values are IEEE-754 binary32 numbers, taken from the
      parameterised [SpecFloat] operations at precision 24 and [emax = 128]
      (round to nearest, ties to even).
    - [uint32_t] values are integers in [Z]; the wrap-around of unsigned
      arithmetic is written out with [u32].
    - The three [float*] members are addresses into caller-owned storage;
      the storage and the hardware tick counter form the [World].
    - Every member function takes the object and the world and returns the
      new object and world (and the returned value, if any). *)

From Stdlib Require Import ZArith Bool List Lia.
From Stdlib Require Import SpecFloat.

Local Open Scope Z_scope.

(** ** Single-precision floating point *)

Definition float : Type := spec_float.

Module F32.

Definition prec : Z := 24.
Definition emax : Z := 128.

Definition add : float -> float -> float := SFadd prec emax.
Definition sub : float -> float -> float := SFsub prec emax.
Definition mul : float -> float -> float := SFmul prec emax.
Definition div : float -> float -> float := SFdiv prec emax.
Definition opp : float -> float := SFopp.

(** The comparison operators of C: every comparison with a NaN is false. *)
Definition ltb (x y : float) : bool := SFltb x y.
Definition gtb (x y : float) : bool := SFltb y x.
Definition leb (x y : float) : bool := SFleb x y.
Definition geb (x y : float) : bool := SFleb y x.
Definition eqb (x y : float) : bool := SFeqb x y.

(** Conversion of an integer to [float] (exact below 2^24, rounded above). *)
Definition of_Z (z : Z) : float := binary_normalize prec emax z 0 false.

(** The literal [0.5f]. *)
Definition half : float := binary_normalize prec emax 1 (-1) false.

(** Contextual conversion of a [float] to [bool]: anything but a zero. *)
Definition to_bool (x : float) : bool := negb (eqb x (of_Z 0)).

Definition is_nan (x : float) : bool :=
  match x with S754_nan => true | _ => false end.

End F32.

Declare Scope f32_scope.
Delimit Scope f32_scope with f32.
Infix "+" := F32.add : f32_scope.
Infix "-" := F32.sub : f32_scope.
Infix "*" := F32.mul : f32_scope.
Infix "/" := F32.div : f32_scope.
Notation "- x" := (F32.opp x) : f32_scope.
Infix "<?" := F32.ltb : f32_scope.
Infix ">?" := F32.gtb : f32_scope.
Infix "<=?" := F32.leb : f32_scope.
Infix ">=?" := F32.geb : f32_scope.

(** ** The macros of QuickPID.h *)

Definition MIN (a b : float) : float := if (a <? b)%f32 then a else b.
Definition MAX (a b : float) : float := if (a <? b)%f32 then b else a.
Definition CONSTRAIN (x a b : float) : float := MIN (MAX x a) b.

(** ** Unsigned 32-bit integers *)

Definition u32 (z : Z) : Z := z mod 2 ^ 32.

(** ** Enumerations *)

Inductive Control : Type := manual | automatic | timer.
Inductive Action : Type := direct | reverse.
Inductive pMode : Type := pOnError | pOnMeas | pOnErrorMeas.
Inductive dMode : Type := dOnError | dOnMeas.
Inductive iAwMode : Type := iAwCondition | iAwClamp | iAwOff.

Definition Control_ord (m : Control) : Z :=
  match m with manual => 0 | automatic => 1 | timer => 2 end.
Definition Action_ord (a : Action) : Z :=
  match a with direct => 0 | reverse => 1 end.
Definition pMode_ord (m : pMode) : Z :=
  match m with pOnError => 0 | pOnMeas => 1 | pOnErrorMeas => 2 end.
Definition dMode_ord (m : dMode) : Z :=
  match m with dOnError => 0 | dOnMeas => 1 end.
Definition iAwMode_ord (m : iAwMode) : Z :=
  match m with iAwCondition => 0 | iAwClamp => 1 | iAwOff => 2 end.

Definition Control_eqb (a b : Control) : bool := Control_ord a =? Control_ord b.
Definition Action_eqb (a b : Action) : bool := Action_ord a =? Action_ord b.
Definition pMode_eqb (a b : pMode) : bool := pMode_ord a =? pMode_ord b.
Definition dMode_eqb (a b : dMode) : bool := dMode_ord a =? dMode_ord b.
Definition iAwMode_eqb (a b : iAwMode) : bool := iAwMode_ord a =? iAwMode_ord b.

(** ** The caller's storage and the clock *)

(** A [float*]: the address of a cell owned by the caller. *)
Definition addr : Type := nat.

(** A clock routine (a pointer to a function of no argument that returns
    [unsigned long]): it reads the hardware tick counter and returns a microsecond count. *)
Definition tGetTimeMicros : Type := Z -> Z.

Record World : Type := mkWorld {
  cells : addr -> float;   (* the caller's float variables *)
  ticks : Z                (* the hardware counter read by clock routines *)
}.

Definition load (w : World) (p : addr) : float := cells w p.

Definition store (w : World) (p : addr) (v : float) : World :=
  {| cells := fun q => if Nat.eqb q p then v else cells w q; ticks := ticks w |}.

(** ** The object *)

Record QuickPID : Type := mkQuickPID {
  dispKp : float;    (* tuning parameters for display *)
  dispKi : float;
  dispKd : float;
  pTerm : float;
  iTerm : float;
  dTerm : float;
  kp : float;
  ki : float;
  kd : float;
  myInput : addr;
  myOutput : addr;
  mySetpoint : addr;
  _getMicros : option tGetTimeMicros;   (* [None] is the null pointer *)
  mode : Control;
  action : Action;
  pmode : pMode;
  dmode : dMode;
  iawmode : iAwMode;
  sampleTimeUs : Z;
  lastTime : Z;
  outputSum : float;
  outMin : float;
  outMax : float;
  error : float;
  lastError : float;
  lastInput : float
}.

(** Assignment to one member. *)

Definition set_dispKp (v : float) (s : QuickPID) : QuickPID :=
  {| dispKp := v; dispKi := dispKi s; dispKd := dispKd s; pTerm := pTerm s;
     iTerm := iTerm s; dTerm := dTerm s; kp := kp s; ki := ki s; kd := kd s;
     myInput := myInput s; myOutput := myOutput s; mySetpoint := mySetpoint s;
     _getMicros := _getMicros s; mode := mode s; action := action s; pmode := pmode s;
     dmode := dmode s; iawmode := iawmode s; sampleTimeUs := sampleTimeUs s;
     lastTime := lastTime s; outputSum := outputSum s; outMin := outMin s;
     outMax := outMax s; error := error s; lastError := lastError s;
     lastInput := lastInput s |}.

Definition set_dispKi (v : float) (s : QuickPID) : QuickPID :=
  {| dispKp := dispKp s; dispKi := v; dispKd := dispKd s; pTerm := pTerm s;
     iTerm := iTerm s; dTerm := dTerm s; kp := kp s; ki := ki s; kd := kd s;
     myInput := myInput s; myOutput := myOutput s; mySetpoint := mySetpoint s;
     _getMicros := _getMicros s; mode := mode s; action := action s; pmode := pmode s;
     dmode := dmode s; iawmode := iawmode s; sampleTimeUs := sampleTimeUs s;
     lastTime := lastTime s; outputSum := outputSum s; outMin := outMin s;
     outMax := outMax s; error := error s; lastError := lastError s;
     lastInput := lastInput s |}.

Definition set_dispKd (v : float) (s : QuickPID) : QuickPID :=
  {| dispKp := dispKp s; dispKi := dispKi s; dispKd := v; pTerm := pTerm s;
     iTerm := iTerm s; dTerm := dTerm s; kp := kp s; ki := ki s; kd := kd s;
     myInput := myInput s; myOutput := myOutput s; mySetpoint := mySetpoint s;
     _getMicros := _getMicros s; mode := mode s; action := action s; pmode := pmode s;
     dmode := dmode s; iawmode := iawmode s; sampleTimeUs := sampleTimeUs s;
     lastTime := lastTime s; outputSum := outputSum s; outMin := outMin s;
     outMax := outMax s; error := error s; lastError := lastError s;
     lastInput := lastInput s |}.

Definition set_pTerm (v : float) (s : QuickPID) : QuickPID :=
  {| dispKp := dispKp s; dispKi := dispKi s; dispKd := dispKd s; pTerm := v;
     iTerm := iTerm s; dTerm := dTerm s; kp := kp s; ki := ki s; kd := kd s;
     myInput := myInput s; myOutput := myOutput s; mySetpoint := mySetpoint s;
     _getMicros := _getMicros s; mode := mode s; action := action s; pmode := pmode s;
     dmode := dmode s; iawmode := iawmode s; sampleTimeUs := sampleTimeUs s;
     lastTime := lastTime s; outputSum := outputSum s; outMin := outMin s;
     outMax := outMax s; error := error s; lastError := lastError s;
     lastInput := lastInput s |}.

Definition set_iTerm (v : float) (s : QuickPID) : QuickPID :=
  {| dispKp := dispKp s; dispKi := dispKi s; dispKd := dispKd s; pTerm := pTerm s;
     iTerm := v; dTerm := dTerm s; kp := kp s; ki := ki s; kd := kd s;
     myInput := myInput s; myOutput := myOutput s; mySetpoint := mySetpoint s;
     _getMicros := _getMicros s; mode := mode s; action := action s; pmode := pmode s;
     dmode := dmode s; iawmode := iawmode s; sampleTimeUs := sampleTimeUs s;
     lastTime := lastTime s; outputSum := outputSum s; outMin := outMin s;
     outMax := outMax s; error := error s; lastError := lastError s;
     lastInput := lastInput s |}.

Definition set_dTerm (v : float) (s : QuickPID) : QuickPID :=
  {| dispKp := dispKp s; dispKi := dispKi s; dispKd := dispKd s; pTerm := pTerm s;
     iTerm := iTerm s; dTerm := v; kp := kp s; ki := ki s; kd := kd s;
     myInput := myInput s; myOutput := myOutput s; mySetpoint := mySetpoint s;
     _getMicros := _getMicros s; mode := mode s; action := action s; pmode := pmode s;
     dmode := dmode s; iawmode := iawmode s; sampleTimeUs := sampleTimeUs s;
     lastTime := lastTime s; outputSum := outputSum s; outMin := outMin s;
     outMax := outMax s; error := error s; lastError := lastError s;
     lastInput := lastInput s |}.

Definition set_kp (v : float) (s : QuickPID) : QuickPID :=
  {| dispKp := dispKp s; dispKi := dispKi s; dispKd := dispKd s; pTerm := pTerm s;
     iTerm := iTerm s; dTerm := dTerm s; kp := v; ki := ki s; kd := kd s;
     myInput := myInput s; myOutput := myOutput s; mySetpoint := mySetpoint s;
     _getMicros := _getMicros s; mode := mode s; action := action s; pmode := pmode s;
     dmode := dmode s; iawmode := iawmode s; sampleTimeUs := sampleTimeUs s;
     lastTime := lastTime s; outputSum := outputSum s; outMin := outMin s;
     outMax := outMax s; error := error s; lastError := lastError s;
     lastInput := lastInput s |}.

Definition set_ki (v : float) (s : QuickPID) : QuickPID :=
  {| dispKp := dispKp s; dispKi := dispKi s; dispKd := dispKd s; pTerm := pTerm s;
     iTerm := iTerm s; dTerm := dTerm s; kp := kp s; ki := v; kd := kd s;
     myInput := myInput s; myOutput := myOutput s; mySetpoint := mySetpoint s;
     _getMicros := _getMicros s; mode := mode s; action := action s; pmode := pmode s;
     dmode := dmode s; iawmode := iawmode s; sampleTimeUs := sampleTimeUs s;
     lastTime := lastTime s; outputSum := outputSum s; outMin := outMin s;
     outMax := outMax s; error := error s; lastError := lastError s;
     lastInput := lastInput s |}.

Definition set_kd (v : float) (s : QuickPID) : QuickPID :=
  {| dispKp := dispKp s; dispKi := dispKi s; dispKd := dispKd s; pTerm := pTerm s;
     iTerm := iTerm s; dTerm := dTerm s; kp := kp s; ki := ki s; kd := v;
     myInput := myInput s; myOutput := myOutput s; mySetpoint := mySetpoint s;
     _getMicros := _getMicros s; mode := mode s; action := action s; pmode := pmode s;
     dmode := dmode s; iawmode := iawmode s; sampleTimeUs := sampleTimeUs s;
     lastTime := lastTime s; outputSum := outputSum s; outMin := outMin s;
     outMax := outMax s; error := error s; lastError := lastError s;
     lastInput := lastInput s |}.

Definition set_myInput (v : addr) (s : QuickPID) : QuickPID :=
  {| dispKp := dispKp s; dispKi := dispKi s; dispKd := dispKd s; pTerm := pTerm s;
     iTerm := iTerm s; dTerm := dTerm s; kp := kp s; ki := ki s; kd := kd s;
     myInput := v; myOutput := myOutput s; mySetpoint := mySetpoint s;
     _getMicros := _getMicros s; mode := mode s; action := action s; pmode := pmode s;
     dmode := dmode s; iawmode := iawmode s; sampleTimeUs := sampleTimeUs s;
     lastTime := lastTime s; outputSum := outputSum s; outMin := outMin s;
     outMax := outMax s; error := error s; lastError := lastError s;
     lastInput := lastInput s |}.

Definition set_myOutput (v : addr) (s : QuickPID) : QuickPID :=
  {| dispKp := dispKp s; dispKi := dispKi s; dispKd := dispKd s; pTerm := pTerm s;
     iTerm := iTerm s; dTerm := dTerm s; kp := kp s; ki := ki s; kd := kd s;
     myInput := myInput s; myOutput := v; mySetpoint := mySetpoint s;
     _getMicros := _getMicros s; mode := mode s; action := action s; pmode := pmode s;
     dmode := dmode s; iawmode := iawmode s; sampleTimeUs := sampleTimeUs s;
     lastTime := lastTime s; outputSum := outputSum s; outMin := outMin s;
     outMax := outMax s; error := error s; lastError := lastError s;
     lastInput := lastInput s |}.

Definition set_mySetpoint (v : addr) (s : QuickPID) : QuickPID :=
  {| dispKp := dispKp s; dispKi := dispKi s; dispKd := dispKd s; pTerm := pTerm s;
     iTerm := iTerm s; dTerm := dTerm s; kp := kp s; ki := ki s; kd := kd s;
     myInput := myInput s; myOutput := myOutput s; mySetpoint := v;
     _getMicros := _getMicros s; mode := mode s; action := action s; pmode := pmode s;
     dmode := dmode s; iawmode := iawmode s; sampleTimeUs := sampleTimeUs s;
     lastTime := lastTime s; outputSum := outputSum s; outMin := outMin s;
     outMax := outMax s; error := error s; lastError := lastError s;
     lastInput := lastInput s |}.

Definition set_getMicros (v : option tGetTimeMicros) (s : QuickPID) : QuickPID :=
  {| dispKp := dispKp s; dispKi := dispKi s; dispKd := dispKd s; pTerm := pTerm s;
     iTerm := iTerm s; dTerm := dTerm s; kp := kp s; ki := ki s; kd := kd s;
     myInput := myInput s; myOutput := myOutput s; mySetpoint := mySetpoint s;
     _getMicros := v; mode := mode s; action := action s; pmode := pmode s;
     dmode := dmode s; iawmode := iawmode s; sampleTimeUs := sampleTimeUs s;
     lastTime := lastTime s; outputSum := outputSum s; outMin := outMin s;
     outMax := outMax s; error := error s; lastError := lastError s;
     lastInput := lastInput s |}.

Definition set_mode (v : Control) (s : QuickPID) : QuickPID :=
  {| dispKp := dispKp s; dispKi := dispKi s; dispKd := dispKd s; pTerm := pTerm s;
     iTerm := iTerm s; dTerm := dTerm s; kp := kp s; ki := ki s; kd := kd s;
     myInput := myInput s; myOutput := myOutput s; mySetpoint := mySetpoint s;
     _getMicros := _getMicros s; mode := v; action := action s; pmode := pmode s;
     dmode := dmode s; iawmode := iawmode s; sampleTimeUs := sampleTimeUs s;
     lastTime := lastTime s; outputSum := outputSum s; outMin := outMin s;
     outMax := outMax s; error := error s; lastError := lastError s;
     lastInput := lastInput s |}.

Definition set_action (v : Action) (s : QuickPID) : QuickPID :=
  {| dispKp := dispKp s; dispKi := dispKi s; dispKd := dispKd s; pTerm := pTerm s;
     iTerm := iTerm s; dTerm := dTerm s; kp := kp s; ki := ki s; kd := kd s;
     myInput := myInput s; myOutput := myOutput s; mySetpoint := mySetpoint s;
     _getMicros := _getMicros s; mode := mode s; action := v; pmode := pmode s;
     dmode := dmode s; iawmode := iawmode s; sampleTimeUs := sampleTimeUs s;
     lastTime := lastTime s; outputSum := outputSum s; outMin := outMin s;
     outMax := outMax s; error := error s; lastError := lastError s;
     lastInput := lastInput s |}.

Definition set_pmode (v : pMode) (s : QuickPID) : QuickPID :=
  {| dispKp := dispKp s; dispKi := dispKi s; dispKd := dispKd s; pTerm := pTerm s;
     iTerm := iTerm s; dTerm := dTerm s; kp := kp s; ki := ki s; kd := kd s;
     myInput := myInput s; myOutput := myOutput s; mySetpoint := mySetpoint s;
     _getMicros := _getMicros s; mode := mode s; action := action s; pmode := v;
     dmode := dmode s; iawmode := iawmode s; sampleTimeUs := sampleTimeUs s;
     lastTime := lastTime s; outputSum := outputSum s; outMin := outMin s;
     outMax := outMax s; error := error s; lastError := lastError s;
     lastInput := lastInput s |}.

Definition set_dmode (v : dMode) (s : QuickPID) : QuickPID :=
  {| dispKp := dispKp s; dispKi := dispKi s; dispKd := dispKd s; pTerm := pTerm s;
     iTerm := iTerm s; dTerm := dTerm s; kp := kp s; ki := ki s; kd := kd s;
     myInput := myInput s; myOutput := myOutput s; mySetpoint := mySetpoint s;
     _getMicros := _getMicros s; mode := mode s; action := action s; pmode := pmode s;
     dmode := v; iawmode := iawmode s; sampleTimeUs := sampleTimeUs s;
     lastTime := lastTime s; outputSum := outputSum s; outMin := outMin s;
     outMax := outMax s; error := error s; lastError := lastError s;
     lastInput := lastInput s |}.

Definition set_iawmode (v : iAwMode) (s : QuickPID) : QuickPID :=
  {| dispKp := dispKp s; dispKi := dispKi s; dispKd := dispKd s; pTerm := pTerm s;
     iTerm := iTerm s; dTerm := dTerm s; kp := kp s; ki := ki s; kd := kd s;
     myInput := myInput s; myOutput := myOutput s; mySetpoint := mySetpoint s;
     _getMicros := _getMicros s; mode := mode s; action := action s; pmode := pmode s;
     dmode := dmode s; iawmode := v; sampleTimeUs := sampleTimeUs s;
     lastTime := lastTime s; outputSum := outputSum s; outMin := outMin s;
     outMax := outMax s; error := error s; lastError := lastError s;
     lastInput := lastInput s |}.

Definition set_sampleTimeUs (v : Z) (s : QuickPID) : QuickPID :=
  {| dispKp := dispKp s; dispKi := dispKi s; dispKd := dispKd s; pTerm := pTerm s;
     iTerm := iTerm s; dTerm := dTerm s; kp := kp s; ki := ki s; kd := kd s;
     myInput := myInput s; myOutput := myOutput s; mySetpoint := mySetpoint s;
     _getMicros := _getMicros s; mode := mode s; action := action s; pmode := pmode s;
     dmode := dmode s; iawmode := iawmode s; sampleTimeUs := v; lastTime := lastTime s;
     outputSum := outputSum s; outMin := outMin s; outMax := outMax s;
     error := error s; lastError := lastError s; lastInput := lastInput s |}.

Definition set_lastTime (v : Z) (s : QuickPID) : QuickPID :=
  {| dispKp := dispKp s; dispKi := dispKi s; dispKd := dispKd s; pTerm := pTerm s;
     iTerm := iTerm s; dTerm := dTerm s; kp := kp s; ki := ki s; kd := kd s;
     myInput := myInput s; myOutput := myOutput s; mySetpoint := mySetpoint s;
     _getMicros := _getMicros s; mode := mode s; action := action s; pmode := pmode s;
     dmode := dmode s; iawmode := iawmode s; sampleTimeUs := sampleTimeUs s;
     lastTime := v; outputSum := outputSum s; outMin := outMin s; outMax := outMax s;
     error := error s; lastError := lastError s; lastInput := lastInput s |}.

Definition set_outputSum (v : float) (s : QuickPID) : QuickPID :=
  {| dispKp := dispKp s; dispKi := dispKi s; dispKd := dispKd s; pTerm := pTerm s;
     iTerm := iTerm s; dTerm := dTerm s; kp := kp s; ki := ki s; kd := kd s;
     myInput := myInput s; myOutput := myOutput s; mySetpoint := mySetpoint s;
     _getMicros := _getMicros s; mode := mode s; action := action s; pmode := pmode s;
     dmode := dmode s; iawmode := iawmode s; sampleTimeUs := sampleTimeUs s;
     lastTime := lastTime s; outputSum := v; outMin := outMin s; outMax := outMax s;
     error := error s; lastError := lastError s; lastInput := lastInput s |}.

Definition set_outMin (v : float) (s : QuickPID) : QuickPID :=
  {| dispKp := dispKp s; dispKi := dispKi s; dispKd := dispKd s; pTerm := pTerm s;
     iTerm := iTerm s; dTerm := dTerm s; kp := kp s; ki := ki s; kd := kd s;
     myInput := myInput s; myOutput := myOutput s; mySetpoint := mySetpoint s;
     _getMicros := _getMicros s; mode := mode s; action := action s; pmode := pmode s;
     dmode := dmode s; iawmode := iawmode s; sampleTimeUs := sampleTimeUs s;
     lastTime := lastTime s; outputSum := outputSum s; outMin := v; outMax := outMax s;
     error := error s; lastError := lastError s; lastInput := lastInput s |}.

Definition set_outMax (v : float) (s : QuickPID) : QuickPID :=
  {| dispKp := dispKp s; dispKi := dispKi s; dispKd := dispKd s; pTerm := pTerm s;
     iTerm := iTerm s; dTerm := dTerm s; kp := kp s; ki := ki s; kd := kd s;
     myInput := myInput s; myOutput := myOutput s; mySetpoint := mySetpoint s;
     _getMicros := _getMicros s; mode := mode s; action := action s; pmode := pmode s;
     dmode := dmode s; iawmode := iawmode s; sampleTimeUs := sampleTimeUs s;
     lastTime := lastTime s; outputSum := outputSum s; outMin := outMin s; outMax := v;
     error := error s; lastError := lastError s; lastInput := lastInput s |}.

Definition set_error (v : float) (s : QuickPID) : QuickPID :=
  {| dispKp := dispKp s; dispKi := dispKi s; dispKd := dispKd s; pTerm := pTerm s;
     iTerm := iTerm s; dTerm := dTerm s; kp := kp s; ki := ki s; kd := kd s;
     myInput := myInput s; myOutput := myOutput s; mySetpoint := mySetpoint s;
     _getMicros := _getMicros s; mode := mode s; action := action s; pmode := pmode s;
     dmode := dmode s; iawmode := iawmode s; sampleTimeUs := sampleTimeUs s;
     lastTime := lastTime s; outputSum := outputSum s; outMin := outMin s;
     outMax := outMax s; error := v; lastError := lastError s;
     lastInput := lastInput s |}.

Definition set_lastError (v : float) (s : QuickPID) : QuickPID :=
  {| dispKp := dispKp s; dispKi := dispKi s; dispKd := dispKd s; pTerm := pTerm s;
     iTerm := iTerm s; dTerm := dTerm s; kp := kp s; ki := ki s; kd := kd s;
     myInput := myInput s; myOutput := myOutput s; mySetpoint := mySetpoint s;
     _getMicros := _getMicros s; mode := mode s; action := action s; pmode := pmode s;
     dmode := dmode s; iawmode := iawmode s; sampleTimeUs := sampleTimeUs s;
     lastTime := lastTime s; outputSum := outputSum s; outMin := outMin s;
     outMax := outMax s; error := error s; lastError := v; lastInput := lastInput s |}.

Definition set_lastInput (v : float) (s : QuickPID) : QuickPID :=
  {| dispKp := dispKp s; dispKi := dispKi s; dispKd := dispKd s; pTerm := pTerm s;
     iTerm := iTerm s; dTerm := dTerm s; kp := kp s; ki := ki s; kd := kd s;
     myInput := myInput s; myOutput := myOutput s; mySetpoint := mySetpoint s;
     _getMicros := _getMicros s; mode := mode s; action := action s; pmode := pmode s;
     dmode := dmode s; iawmode := iawmode s; sampleTimeUs := sampleTimeUs s;
     lastTime := lastTime s; outputSum := outputSum s; outMin := outMin s;
     outMax := outMax s; error := error s; lastError := lastError s; lastInput := v |}.

(** ** Member functions *)

Local Open Scope f32_scope.

(** [QuickPID::SetOutputLimits]. *)
Definition SetOutputLimits (Min Max : float) (s : QuickPID) (w : World)
  : QuickPID * World :=
  if Min >=? Max then (s, w)
  else
    let s := set_outMin Min s in
    let s := set_outMax Max s in
    if negb (Control_eqb (mode s) manual) then
      let w := store w (myOutput s)
                 (CONSTRAIN (load w (myOutput s)) (outMin s) (outMax s)) in
      let s := set_outputSum (CONSTRAIN (outputSum s) (outMin s) (outMax s)) s in
      (s, w)
    else (s, w).

(** [QuickPID::SetControllerDirection]. *)
Definition SetControllerDirection (Action_ : Action) (s : QuickPID) : QuickPID :=
  set_action Action_ s.

(** [QuickPID::SetTunings], the overload with the three mode selections. *)
Definition SetTunings (Kp Ki Kd : float) (pMode_ : pMode) (dMode_ : dMode)
    (iAwMode_ : iAwMode) (s : QuickPID) : QuickPID :=
  if (Kp <? F32.of_Z 0) || (Ki <? F32.of_Z 0) || (Kd <? F32.of_Z 0) then s
  else
    let s := set_pmode pMode_ s in
    let s := set_dmode dMode_ s in
    let s := set_iawmode iAwMode_ s in
    let s := set_dispKp Kp s in
    let s := set_dispKi Ki s in
    let s := set_dispKd Kd s in
    let SampleTimeSec := F32.of_Z (sampleTimeUs s) / F32.of_Z 1000000 in
    let s := set_kp Kp s in
    let s := set_ki (Ki * SampleTimeSec) s in
    let s := set_kd (Kd / SampleTimeSec) s in
    s.

(** [QuickPID::SetTunings], the overload that keeps the remembered modes. *)
Definition SetTunings_gains (Kp Ki Kd : float) (s : QuickPID) : QuickPID :=
  SetTunings Kp Ki Kd (pmode s) (dmode s) (iawmode s) s.

(** [QuickPID::SetSampleTimeUs]. *)
Definition SetSampleTimeUs (NewSampleTimeUs : Z) (s : QuickPID) : QuickPID :=
  if (0 <? NewSampleTimeUs)%Z then
    let ratio := F32.of_Z NewSampleTimeUs / F32.of_Z (sampleTimeUs s) in
    let s := set_ki (ki s * ratio) s in
    let s := set_kd (kd s / ratio) s in
    let s := set_sampleTimeUs NewSampleTimeUs s in
    s
  else s.

(** [QuickPID::Initialize]. *)
Definition Initialize (s : QuickPID) (w : World) : QuickPID :=
  let s := set_outputSum (load w (myOutput s)) s in
  let s := set_lastInput (load w (myInput s)) s in
  let s := set_outputSum (CONSTRAIN (outputSum s) (outMin s) (outMax s)) s in
  s.

(** [QuickPID::SetMode].  The member [_getMicros] is assigned the null
    pointer, so the test that follows reads the null pointer back. *)
Definition SetMode (Mode : Control) (getMicros : option tGetTimeMicros)
    (s : QuickPID) (w : World) : QuickPID :=
  let s :=
    if Control_eqb (mode s) manual && negb (Control_eqb Mode manual)
    then Initialize s w else s in
  let s := set_mode Mode s in
  let s := set_getMicros None s in
  match _getMicros s with
  | Some clk => set_lastTime (u32 (clk (ticks w) - sampleTimeUs s)) s
  | None => s
  end.

(** [QuickPID::SetProportionalMode], [SetDerivativeMode], [SetAntiWindupMode]. *)
Definition SetProportionalMode (pMode_ : pMode) (s : QuickPID) : QuickPID :=
  set_pmode pMode_ s.
Definition SetDerivativeMode (dMode_ : dMode) (s : QuickPID) : QuickPID :=
  set_dmode dMode_ s.
Definition SetAntiWindupMode (iAwMode_ : iAwMode) (s : QuickPID) : QuickPID :=
  set_iawmode iAwMode_ s.

(** Status functions. *)
Definition GetKp (s : QuickPID) : float := dispKp s.
Definition GetKi (s : QuickPID) : float := dispKi s.
Definition GetKd (s : QuickPID) : float := dispKd s.
Definition GetPterm (s : QuickPID) : float := pTerm s.
Definition GetIterm (s : QuickPID) : float := iTerm s.
Definition GetDterm (s : QuickPID) : float := dTerm s.
Definition GetMode (s : QuickPID) : Z := Control_ord (mode s).
Definition GetDirection (s : QuickPID) : Z := Action_ord (action s).
Definition GetPmode (s : QuickPID) : Z := pMode_ord (pmode s).
Definition GetDmode (s : QuickPID) : Z := dMode_ord (dmode s).
Definition GetAwMode (s : QuickPID) : Z := iAwMode_ord (iawmode s).

(** The default member initializers of the class declaration, applied to the
    raw storage of the object before the constructor body runs.  Members
    without an initializer keep whatever the storage held. *)
Definition default_members (raw : QuickPID) : QuickPID :=
  let s := set_dispKp (F32.of_Z 0) raw in
  let s := set_dispKi (F32.of_Z 0) s in
  let s := set_dispKd (F32.of_Z 0) s in
  let s := set_mode manual s in
  let s := set_action direct s in
  let s := set_pmode pOnError s in
  let s := set_dmode dOnMeas s in
  let s := set_iawmode iAwCondition s in
  s.

(** The constructor [QuickPID::QuickPID] with all parameters. *)
Definition QuickPID_ctor (raw : QuickPID) (Input Output Setpoint : addr)
    (Kp Ki Kd : float) (pMode_ : pMode) (dMode_ : dMode) (iAwMode_ : iAwMode)
    (Action_ : Action) (getMicros : option tGetTimeMicros) (w : World)
  : QuickPID * World :=
  let s := default_members raw in
  let s := set_myOutput Output s in
  let s := set_myInput Input s in
  let s := set_mySetpoint Setpoint s in
  let s := set_mode manual s in
  let s := set_getMicros getMicros s in
  let '(s, w) := SetOutputLimits (F32.of_Z 0) (F32.of_Z 255) s w in
  let s := set_sampleTimeUs 100000 s in
  let s := SetControllerDirection Action_ s in
  let s := SetTunings Kp Ki Kd pMode_ dMode_ iAwMode_ s in
  match _getMicros s with
  | Some clk => (set_lastTime (u32 (clk (ticks w) - sampleTimeUs s)) s, w)
  | None => (s, w)
  end.

(** *** Compute *)

(** The values of the locals of [Compute] once the gate has opened, as
    functions of the object and the world at entry. *)

Definition cycle_input (s : QuickPID) (w : World) : float := load w (myInput s).

Definition cycle_dInput (s : QuickPID) (w : World) : float :=
  let dInput := cycle_input s w - lastInput s in
  if Action_eqb (action s) reverse then - dInput else dInput.

Definition cycle_error (s : QuickPID) (w : World) : float :=
  let e := load w (mySetpoint s) - cycle_input s w in
  if Action_eqb (action s) reverse then - e else e.

Definition cycle_dError (s : QuickPID) (w : World) : float :=
  cycle_error s w - lastError s.

(** [peTerm] and [pmTerm] after the split by proportional mode. *)
Definition cycle_pTerms (s : QuickPID) (w : World) : float * float :=
  let peTerm := kp s * cycle_error s w in
  let pmTerm := kp s * cycle_dInput s w in
  match pmode s with
  | pOnError => (peTerm, F32.of_Z 0)
  | pOnMeas => (F32.of_Z 0, pmTerm)
  | pOnErrorMeas => (peTerm * F32.half, pmTerm * F32.half)
  end.

Definition cycle_peTerm (s : QuickPID) (w : World) : float := fst (cycle_pTerms s w).
Definition cycle_pmTerm (s : QuickPID) (w : World) : float := snd (cycle_pTerms s w).


(** The locals [now] and [timeChange] before the gate.  [now] is declared
    without an initializer: [now0] is what the local holds then. *)
Definition read_clock (now0 : Z) (s : QuickPID) (w : World) : Z * Z :=
  match mode s, _getMicros s with
  | automatic, Some clk =>
      let now := u32 (clk (ticks w)) in
      (now, u32 (now - lastTime s))
  | _, _ => (now0, 0%Z)
  end.

(** The test of the gate: timer mode, or a full period on the clock. *)
Definition gate_open (s : QuickPID) (w : World) : bool :=
  Control_eqb (mode s) timer
  || (sampleTimeUs s <=? snd (read_clock 0 s w))%Z.

(** The block of [QuickPID::Compute] behind the gate, with [now] as read
    before it.  A guarded assignment [if (c) x = e;] stores
    [if c then e else x]. *)
Definition Compute_cycle (now : Z) (s : QuickPID) (w : World) : QuickPID * World :=
  let input := load w (myInput s) in
  let dInput := input - lastInput s in
  let dInput := if Action_eqb (action s) reverse then - dInput else dInput in
  let s := set_error (load w (mySetpoint s) - input) s in
  let s := set_error (if Action_eqb (action s) reverse then - error s else error s) s in
  let dError := error s - lastError s in
  let peTerm := kp s * error s in
  let pmTerm := kp s * dInput in
  let '(peTerm, pmTerm) :=
    match pmode s with
    | pOnError => (peTerm, F32.of_Z 0)
    | pOnMeas => (F32.of_Z 0, pmTerm)
    | pOnErrorMeas => (peTerm * F32.half, pmTerm * F32.half)
    end in
  let s := set_pTerm (peTerm - pmTerm) s in
  let s := set_iTerm (ki s * error s) s in
  let s :=
    set_dTerm match dmode s with
              | dOnError => kd s * dError
              | dOnMeas => - kd s * dInput
              end s in
  let s :=
    if iAwMode_eqb (iawmode s) iAwCondition then
      let iTermOut := (peTerm - pmTerm) + ki s * (iTerm s + error s) in
      let aw :=
        if (iTermOut >? outMax s) && (dError >? F32.of_Z 0) then true
        else if (iTermOut <? outMin s) && (dError <? F32.of_Z 0) then true
        else false in
      set_iTerm (if aw && F32.to_bool (ki s)
                 then CONSTRAIN iTermOut (- outMax s) (outMax s)
                 else iTerm s) s
    else s in
  let s := set_outputSum (outputSum s + iTerm s) s in
  let s :=
    set_outputSum (if iAwMode_eqb (iawmode s) iAwOff
                   then outputSum s - pmTerm
                   else CONSTRAIN (outputSum s - pmTerm) (outMin s) (outMax s)) s in
  let w := store w (myOutput s)
             (CONSTRAIN (outputSum s + peTerm + dTerm s) (outMin s) (outMax s)) in
  let s := set_lastError (error s) s in
  let s := set_lastInput input s in
  let s := set_lastTime now s in
  (s, w).

(** [QuickPID::Compute]. *)
Definition Compute (now0 : Z) (s : QuickPID) (w : World) : bool * QuickPID * World :=
  if Control_eqb (mode s) manual then (false, s, w)
  else
    let '(now, timeChange) := read_clock now0 s w in
    if Control_eqb (mode s) timer || (sampleTimeUs s <=? timeChange)%Z then
      let '(s, w) := Compute_cycle now s w in
      (true, s, w)
    else (false, s, w).

(** ** The concrete scenario *)

(** Raw storage of an object before construction; the scenario fixes
    [lastError] to zero. *)
Definition zero_storage : QuickPID :=
  {| dispKp := F32.of_Z 0; dispKi := F32.of_Z 0; dispKd := F32.of_Z 0;
     pTerm := F32.of_Z 0; iTerm := F32.of_Z 0; dTerm := F32.of_Z 0;
     kp := F32.of_Z 0; ki := F32.of_Z 0; kd := F32.of_Z 0;
     myInput := 0%nat; myOutput := 0%nat; mySetpoint := 0%nat;
     _getMicros := None; mode := manual; action := direct; pmode := pOnError;
     dmode := dOnMeas; iawmode := iAwCondition; sampleTimeUs := 0; lastTime := 0;
     outputSum := F32.of_Z 0; outMin := F32.of_Z 0; outMax := F32.of_Z 0;
     error := F32.of_Z 0; lastError := F32.of_Z 0; lastInput := F32.of_Z 0 |}.

Definition p_in : addr := 0%nat.
Definition p_out : addr := 1%nat.
Definition p_set : addr := 2%nat.

Definition mk_cells (i o sp : float) : addr -> float :=
  fun p => if Nat.eqb p p_in then i else if Nat.eqb p p_out then o else sp.

Definition scenario_world0 : World :=
  {| cells := mk_cells (F32.of_Z 10) (F32.of_Z 10) (F32.of_Z 0); ticks := 0 |}.

Definition scenario_constructed : QuickPID :=
  fst (QuickPID_ctor zero_storage p_in p_out p_set
         (F32.of_Z 2) (F32.of_Z 5) (F32.of_Z 1)
         pOnError dOnMeas iAwCondition direct None scenario_world0).

(** Activation in timer mode, then the caller sets the setpoint to 20. *)
Definition scenario_state : QuickPID :=
  SetMode timer None scenario_constructed scenario_world0.
Definition scenario_world : World := store scenario_world0 p_set (F32.of_Z 20).

(** The same controller with the setpoint at 210: the hypothetical
    integrated output exceeds [outMax] while the error grows. *)
Definition windup_world : World := store scenario_world0 p_set (F32.of_Z 210).

(** The cells at construction, but with the output cell above, and below,
    the limits. *)
Definition output_above_world : World := store scenario_world0 p_out (F32.of_Z 300).
Definition output_below_world : World := store scenario_world0 p_out (F32.of_Z (-5)).

(** A clock routine that returns the tick counter itself. *)
Definition tick_clock : tGetTimeMicros := fun t => t.

(** ** Frames: groups of members that an operation leaves alone *)

Definition same_rawGains (s s' : QuickPID) : Prop :=
  dispKp s' = dispKp s /\ dispKi s' = dispKi s /\ dispKd s' = dispKd s.

Definition same_scaledGains (s s' : QuickPID) : Prop :=
  kp s' = kp s /\ ki s' = ki s /\ kd s' = kd s.

Definition same_terms (s s' : QuickPID) : Prop :=
  pTerm s' = pTerm s /\ iTerm s' = iTerm s /\ dTerm s' = dTerm s.

Definition same_links (s s' : QuickPID) : Prop :=
  myInput s' = myInput s /\ myOutput s' = myOutput s /\ mySetpoint s' = mySetpoint s.

Definition same_selections (s s' : QuickPID) : Prop :=
  action s' = action s /\ pmode s' = pmode s /\ dmode s' = dmode s
  /\ iawmode s' = iawmode s.

Definition same_limits (s s' : QuickPID) : Prop :=
  outMin s' = outMin s /\ outMax s' = outMax s.

(** [SetMode] activates the controller: it leaves manual mode. *)
Definition activates (s : QuickPID) (Mode : Control) : Prop :=
  mode s = manual /\ Mode <> manual.



(** ** The delegating constructors *)

(** The constructor with gains and action.  Its arguments assign the mode
    members of the storage, then the full constructor runs with no clock. *)
Definition QuickPID_ctor_action (raw : QuickPID) (Input Output Setpoint : addr)
    (Kp Ki Kd : float) (Action_ : Action) (w : World) : QuickPID * World :=
  let raw := set_pmode pOnError raw in
  let raw := set_dmode dOnMeas raw in
  let raw := set_iawmode iAwCondition raw in
  let raw := set_action Action_ raw in
  QuickPID_ctor raw Input Output Setpoint Kp Ki Kd
    (pmode raw) (dmode raw) (iawmode raw) (action raw) None w.

(** The simplified constructor.  Its gain arguments are the members
    [dispKp], [dispKi] and [dispKd], read from the storage before the full
    constructor has run. *)
Definition QuickPID_ctor_links (raw : QuickPID) (Input Output Setpoint : addr)
    (w : World) : QuickPID * World :=
  let Kp := dispKp raw in
  let Ki := dispKi raw in
  let Kd := dispKd raw in
  let raw := set_pmode pOnError raw in
  let raw := set_dmode dOnMeas raw in
  let raw := set_iawmode iAwCondition raw in
  let raw := set_action direct raw in
  QuickPID_ctor raw Input Output Setpoint Kp Ki Kd
    (pmode raw) (dmode raw) (iawmode raw) (action raw) None w.

(** ** Histories of use *)

(** One call of a public member function. *)
Inductive Call : Type :=
| call_SetMode (Mode : Control) (getMicros : option tGetTimeMicros)
| call_Compute (now0 : Z)
| call_SetOutputLimits (Min Max : float)
| call_SetTunings (Kp Ki Kd : float) (pMode_ : pMode) (dMode_ : dMode)
    (iAwMode_ : iAwMode)
| call_SetTunings_gains (Kp Ki Kd : float)
| call_SetControllerDirection (Action_ : Action)
| call_SetSampleTimeUs (NewSampleTimeUs : Z)
| call_SetProportionalMode (pMode_ : pMode)
| call_SetDerivativeMode (dMode_ : dMode)
| call_SetAntiWindupMode (iAwMode_ : iAwMode).

(** What happens to the object: a call, or the caller and the hardware
    changing the cells and the tick counter between calls. *)
Inductive Event : Type :=
| by_call (c : Call)
| by_caller (w' : World).

Definition do_call (c : Call) (s : QuickPID) (w : World) : QuickPID * World :=
  match c with
  | call_SetMode Mode getMicros => (SetMode Mode getMicros s w, w)
  | call_Compute now0 =>
      (snd (fst (Compute now0 s w)), snd (Compute now0 s w))
  | call_SetOutputLimits Min Max => SetOutputLimits Min Max s w
  | call_SetTunings Kp Ki Kd pm dm aw => (SetTunings Kp Ki Kd pm dm aw s, w)
  | call_SetTunings_gains Kp Ki Kd => (SetTunings_gains Kp Ki Kd s, w)
  | call_SetControllerDirection a => (SetControllerDirection a s, w)
  | call_SetSampleTimeUs T => (SetSampleTimeUs T s, w)
  | call_SetProportionalMode pm => (SetProportionalMode pm s, w)
  | call_SetDerivativeMode dm => (SetDerivativeMode dm s, w)
  | call_SetAntiWindupMode aw => (SetAntiWindupMode aw s, w)
  end.

Fixpoint run (evs : list Event) (s : QuickPID) (w : World) : QuickPID * World :=
  match evs with
  | nil => (s, w)
  | by_call c :: evs => let '(s, w) := do_call c s w in run evs s w
  | by_caller w' :: evs => run evs s w'
  end.

(** The limits passed to [SetOutputLimits] in an event are numbers. *)
Definition numeric_limits (ev : Event) : Prop :=
  match ev with
  | by_call (call_SetOutputLimits Min Max) =>
      F32.is_nan Min = false /\ F32.is_nan Max = false
  | _ => True
  end.

(** An event does not switch anti-windup off. *)
Definition keeps_antiwindup (ev : Event) : Prop :=
  match ev with
  | by_call (call_SetTunings _ _ _ _ _ aw) => aw <> iAwOff
  | by_call (call_SetAntiWindupMode aw) => aw <> iAwOff
  | _ => True
  end.

(** ** Predicates on values and objects *)

(** [lo <= x <= hi]. *)
Definition in_range (lo hi x : float) : bool := (lo <=? x) && (x <=? hi).

(** [r] is [x] saturated to the range from [lo] to [hi]: it lies in the
    range, it is the limit that [x] is beyond, and it is [x] itself when [x]
    is inside.  A NaN goes to the upper limit. *)
Definition clamped (lo hi x r : float) : Prop :=
  in_range lo hi r = true
  /\ ((x <? lo) = true -> r = lo)
  /\ ((lo <=? x) = true -> (x <? hi) = true -> r = x)
  /\ ((hi <=? x) = true -> r = hi)
  /\ (F32.is_nan x = true -> r = hi).

(** The limits are in strict order. *)
Definition limits_ordered (s : QuickPID) : Prop := (outMin s <? outMax s) = true.

(** [x < 0] is false. *)
Definition not_negative (x : float) : Prop := (x <? F32.of_Z 0) = false.

(** The sign bit is clear, or there is no sign (NaN). *)
Definition sign_clear (x : float) : bool :=
  match x with
  | S754_nan => true
  | S754_zero s | S754_infinity s | S754_finite s _ _ => negb s
  end.

(** A zero or a finite number (neither infinite nor NaN). *)
Definition is_finite (x : float) : bool :=
  match x with
  | S754_zero _ | S754_finite _ _ _ => true
  | _ => false
  end.

Definition is_zero (x : float) : bool :=
  match x with S754_zero _ => true | _ => false end.

(** Members that [Compute] and the mode selectors never assign. *)
Definition same_tuning (s s' : QuickPID) : Prop :=
  same_rawGains s s' /\ same_scaledGains s s' /\ same_limits s s'
  /\ sampleTimeUs s' = sampleTimeUs s.

(** ** Invariants of use *)

(** No clock is held outside manual mode, and the period is positive. *)
Definition clock_dropped (s : QuickPID) : Prop :=
  (mode s = manual \/ _getMicros s = None) /\ (0 < sampleTimeUs s)%Z.

(** Anti-windup is on, the limits are in order, and the accumulator of an
    active controller lies within them. *)
Definition accumulator_guarded (s : QuickPID) : Prop :=
  limits_ordered s /\ iawmode s <> iAwOff
  /\ (mode s <> manual -> in_range (outMin s) (outMax s) (outputSum s) = true).

(** None of the working coefficients is below zero. *)
Definition gains_not_negative (s : QuickPID) : Prop :=
  not_negative (kp s) /\ not_negative (ki s) /\ not_negative (kd s)
  /\ (0 < sampleTimeUs s)%Z.

(** A history of use: activation in timer mode, a setpoint far away, two
    cycles, narrower limits, and another cycle. *)
Definition sample_history : list Event :=
  by_call (call_SetMode timer (Some tick_clock))
  :: by_caller windup_world
  :: by_call (call_Compute 0)
  :: by_call (call_Compute 0)
  :: by_call (call_SetOutputLimits (F32.of_Z 0) (F32.of_Z 100))
  :: by_call (call_SetSampleTimeUs 30000)
  :: by_call (call_Compute 0)
  :: nil.

(** * Properties *)

Arguments F32.add : simpl never.
Arguments F32.sub : simpl never.
Arguments F32.mul : simpl never.
Arguments F32.div : simpl never.
Arguments F32.opp : simpl never.
Arguments F32.ltb : simpl never.
Arguments F32.gtb : simpl never.
Arguments F32.leb : simpl never.
Arguments F32.geb : simpl never.
Arguments F32.of_Z : simpl never.
Arguments F32.to_bool : simpl never.
Arguments CONSTRAIN : simpl never.
Arguments u32 : simpl never.

(** Reduction of member reads through member assignments. *)
Ltac members :=
  cbn [fst snd
       dispKp dispKi dispKd pTerm iTerm dTerm kp ki kd myInput myOutput mySetpoint _getMicros
       mode action pmode dmode iawmode sampleTimeUs lastTime outputSum outMin outMax error lastError lastInput
       set_dispKp set_dispKi set_dispKd set_pTerm set_iTerm set_dTerm set_kp set_ki set_kd
       set_myInput set_myOutput set_mySetpoint set_getMicros set_mode set_action set_pmode set_dmode set_iawmode
       set_sampleTimeUs set_lastTime set_outputSum set_outMin set_outMax set_error set_lastError set_lastInput].

(** Symbolic run of the block behind the gate, floats left alone. *)
Ltac run_cycle :=
  cbv - [F32.add F32.sub F32.mul F32.div F32.opp F32.ltb F32.gtb F32.leb F32.geb
         F32.of_Z F32.half F32.to_bool CONSTRAIN andb orb].

(** ** Comparisons of [float] *)

Lemma Control_eqb_eq (a b : Control) : Control_eqb a b = true <-> a = b.
Proof. destruct a, b; cbv; split; congruence. Qed.

Lemma Control_eqb_neq (a b : Control) : Control_eqb a b = false <-> a <> b.
Proof. destruct a, b; cbv; split; congruence. Qed.

Lemma iAwMode_eqb_eq (a b : iAwMode) : iAwMode_eqb a b = true <-> a = b.
Proof. destruct a, b; cbv; split; congruence. Qed.

(** A value that is at least zero is not below zero. *)
Lemma F32_nonneg_not_neg (x : float) :
  F32.geb x (F32.of_Z 0) = true -> F32.ltb x (F32.of_Z 0) = false.
Proof.
  destruct x as [sx|sx| |sx mx ex]; try destruct sx; cbv; congruence.
Qed.

(** The order of two numbers read the other way round. *)
Lemma SFcompare_antisym (x y : float) :
  SFcompare y x = option_map CompOpp (SFcompare x y).
Proof.
  destruct x as [sx|sx| |sx mx ex], y as [sy|sy| |sy my ey];
    try destruct sx; try destruct sy; try reflexivity; simpl.
  all: rewrite (Z.compare_antisym ey ex); destruct (Z.compare ey ex); simpl;
    try reflexivity.
  - f_equal. f_equal. exact (eq_sym (Pos.compare_cont_antisym mx my Eq)).
  - f_equal. exact (eq_sym (Pos.compare_cont_antisym mx my Eq)).
Qed.

Lemma SFcompare_refl (x : float) : F32.is_nan x = false -> SFcompare x x = Some Eq.
Proof.
  destruct x as [sx|sx| |sx mx ex]; try destruct sx; try reflexivity;
    try discriminate; intros _; simpl; rewrite Z.compare_refl.
  - f_equal. change (CompOpp (Pos.compare mx mx) = Eq). now rewrite Pos.compare_refl.
  - f_equal. exact (Pos.compare_refl mx).
Qed.

Lemma F32_leb_not_nan (x y : float) :
  F32.leb x y = true -> F32.is_nan x = false /\ F32.is_nan y = false.
Proof. destruct x, y; cbv; try discriminate; auto. Qed.

Lemma F32_leb_refl (x : float) : F32.is_nan x = false -> F32.leb x x = true.
Proof.
  intros H. unfold F32.leb, SFleb. now rewrite (SFcompare_refl x H).
Qed.

Lemma F32_ltb_leb (x y : float) : F32.ltb x y = true -> F32.leb x y = true.
Proof.
  unfold F32.ltb, F32.leb, SFltb, SFleb.
  destruct (SFcompare x y) as [[ | | ]|]; congruence.
Qed.

(** Among numbers, [x < y] is false exactly when [y <= x]. *)
Lemma F32_not_ltb_leb (x y : float) :
  F32.is_nan x = false -> F32.is_nan y = false ->
  F32.ltb x y = false -> F32.leb y x = true.
Proof.
  unfold F32.ltb, F32.leb, SFltb, SFleb. intros Hx Hy.
  rewrite (SFcompare_antisym x y).
  destruct (SFcompare x y) as [[ | | ]|] eqn:E; simpl; try congruence.
  destruct x, y; simpl in *; discriminate.
Qed.

(** [CONSTRAIN] saturates: with limits in order, a number is taken into
    the closed range between them. *)
Lemma CONSTRAIN_range (x a b : float) :
  F32.leb a b = true -> F32.is_nan x = false ->
  F32.leb a (CONSTRAIN x a b) = true /\ F32.leb (CONSTRAIN x a b) b = true.
Proof.
  intros Hab Hx. destruct (F32_leb_not_nan a b Hab) as [Ha Hb].
  unfold CONSTRAIN, MIN, MAX.
  destruct (F32.ltb x a) eqn:Hxa.
  - destruct (F32.ltb a b) eqn:Hlt; split;
      auto using F32_leb_refl, F32_ltb_leb.
  - destruct (F32.ltb x b) eqn:Hxb; split;
      auto using F32_leb_refl, F32_ltb_leb, F32_not_ltb_leb.
Qed.

(** [CONSTRAIN] leaves a number of the range alone. *)
Lemma CONSTRAIN_inside (x a b : float) :
  F32.leb a x = true -> F32.ltb x b = true -> CONSTRAIN x a b = x.
Proof.
  intros Hax Hxb. unfold CONSTRAIN, MIN, MAX.
  assert (Hxa : F32.ltb x a = false).
  { revert Hax. unfold F32.ltb, F32.leb, SFltb, SFleb.
    rewrite (SFcompare_antisym a x).
    destruct (SFcompare a x) as [[ | | ]|]; simpl; congruence. }
  rewrite Hxa, Hxb. reflexivity.
Qed.

(** The order of two finite numbers of one sign, by exponent and mantissa. *)
Lemma finite_order_lt (e1 e2 : Z) (m1 m2 : positive) :
  match Z.compare e1 e2 with
  | Lt => Lt
  | Gt => Gt
  | Eq => Pos.compare_cont Eq m1 m2
  end = Lt
  <-> (e1 < e2 \/ (e1 = e2 /\ (m1 < m2)%positive))%Z.
Proof.
  change (Pos.compare_cont Eq m1 m2) with (Pos.compare m1 m2).
  destruct (Z.compare_spec e1 e2) as [He | He | He];
    rewrite ?Pos.compare_lt_iff; split; intros H;
    try discriminate; try lia; auto.
Qed.

Lemma finite_order_gt (e1 e2 : Z) (m1 m2 : positive) :
  match Z.compare e1 e2 with
  | Lt => Gt
  | Gt => Lt
  | Eq => CompOpp (Pos.compare_cont Eq m1 m2)
  end = Lt
  <-> (e2 < e1 \/ (e1 = e2 /\ (m2 < m1)%positive))%Z.
Proof.
  change (Pos.compare_cont Eq m1 m2) with (Pos.compare m1 m2).
  destruct (Z.compare_spec e1 e2) as [He | He | He]; split; intros H;
    try discriminate; try lia; auto.
  - right. split; [exact He|]. apply Pos.compare_gt_iff.
    destruct (Pos.compare m1 m2); simpl in H; congruence.
  - destruct H as [H | [_ H]]; [lia|]. apply Pos.compare_gt_iff in H.
    rewrite H. reflexivity.
Qed.

(** [<] on [float] is transitive. *)
Lemma F32_ltb_trans (x y z : float) :
  F32.ltb x y = true -> F32.ltb y z = true -> F32.ltb x z = true.
Proof.
  unfold F32.ltb, SFltb.
  destruct x as [sx|sx| |sx mx ex], y as [sy|sy| |sy my ey],
    z as [sz|sz| |sz mz ez];
    try destruct sx; try destruct sy; try destruct sz; simpl;
    try discriminate; try reflexivity.
  - intros H1 H2.
    destruct (match Z.compare ey ez with Lt => Gt | Gt => Lt
              | Eq => CompOpp (Pos.compare_cont Eq my mz) end) eqn:E2;
      try discriminate.
    destruct (match Z.compare ex ey with Lt => Gt | Gt => Lt
              | Eq => CompOpp (Pos.compare_cont Eq mx my) end) eqn:E1;
      try discriminate.
    apply finite_order_gt in E1, E2.
    assert (E3 : (ez < ex \/ (ex = ez /\ (mz < mx)%positive))%Z) by lia.
    apply finite_order_gt in E3. rewrite E3. reflexivity.
  - intros H1 H2.
    destruct (match Z.compare ey ez with Lt => Lt | Gt => Gt
              | Eq => Pos.compare_cont Eq my mz end) eqn:E2; try discriminate.
    destruct (match Z.compare ex ey with Lt => Lt | Gt => Gt
              | Eq => Pos.compare_cont Eq mx my end) eqn:E1; try discriminate.
    apply finite_order_lt in E1, E2.
    assert (E3 : (ex < ez \/ (ex = ez /\ (mx < mz)%positive))%Z) by lia.
    apply finite_order_lt in E3. rewrite E3. reflexivity.
Qed.

Lemma F32_ltb_not_geb (x y : float) : F32.ltb x y = true -> F32.geb x y = false.
Proof.
  unfold F32.ltb, F32.geb, SFltb, SFleb. rewrite (SFcompare_antisym x y).
  destruct (SFcompare x y) as [[ | | ]|]; simpl; congruence.
Qed.

(** [CONSTRAIN] with limits in order lands between them, whatever it is
    given: a NaN is taken to the upper limit. *)
Lemma CONSTRAIN_saturates (x a b : float) :
  F32.leb a b = true -> in_range a b (CONSTRAIN x a b) = true.
Proof.
  intros Hab. destruct (F32_leb_not_nan a b Hab) as [Ha Hb].
  unfold in_range, CONSTRAIN, MIN, MAX. apply andb_true_iff.
  destruct (F32.ltb x a) eqn:Hxa.
  - destruct (F32.ltb a b) eqn:Hlt; split;
      auto using F32_leb_refl, F32_ltb_leb.
  - destruct (F32.ltb x b) eqn:Hxb; split;
      auto using F32_leb_refl, F32_ltb_leb.
    apply F32_not_ltb_leb; auto.
    destruct x; try reflexivity. destruct b; discriminate.
Qed.

Lemma CONSTRAIN_nan (a b : float) : CONSTRAIN S754_nan a b = b.
Proof. unfold CONSTRAIN, MIN, MAX. destruct a, b; reflexivity. Qed.

(** [CONSTRAIN] with limits in strict order saturates. *)
Lemma CONSTRAIN_clamped (x lo hi : float) :
  F32.ltb lo hi = true -> clamped lo hi x (CONSTRAIN x lo hi).
Proof.
  intros Hlt. pose proof (F32_ltb_leb lo hi Hlt) as Hle.
  unfold clamped. split; [now apply CONSTRAIN_saturates|].
  split; [|split; [|split]].
  - intros Hx. unfold CONSTRAIN, MIN, MAX. rewrite Hx, Hlt. reflexivity.
  - intros Hlo Hhi. now apply CONSTRAIN_inside.
  - intros Hhi.
    assert (Hxhi : F32.ltb x hi = false).
    { destruct (F32.ltb x hi) eqn:E; [|reflexivity].
      apply F32_ltb_not_geb in E. unfold F32.geb, F32.leb in *. congruence. }
    assert (Hxlo : F32.ltb x lo = false).
    { destruct (F32.ltb x lo) eqn:E; [|reflexivity].
      rewrite (F32_ltb_trans x lo hi E Hlt) in Hxhi. discriminate. }
    unfold CONSTRAIN, MIN, MAX. rewrite Hxlo, Hxhi. reflexivity.
  - intros Hnan. destruct x; try discriminate. apply CONSTRAIN_nan.
Qed.

(** ** The concrete scenario *)

(** C1. In the scenario of the specification (direct action, proportional
    on error, derivative on measurement, conditional anti-windup, gains
    2, 5 and 1, period 100000 microseconds, limits 0 and 255, accumulator 10,
    last input 10, last error 0, input cell 10, setpoint cell 20, timer mode)
    one call of [Compute] returns true and writes 35 to the output cell; the
    stored terms are then 20, 5 and a zero. *)
Theorem scenario_Compute (now0 : Z) :
  (action scenario_state = direct /\ pmode scenario_state = pOnError
   /\ dmode scenario_state = dOnMeas /\ iawmode scenario_state = iAwCondition
   /\ mode scenario_state = timer
   /\ GetKp scenario_state = F32.of_Z 2 /\ GetKi scenario_state = F32.of_Z 5
   /\ GetKd scenario_state = F32.of_Z 1
   /\ sampleTimeUs scenario_state = 100000%Z
   /\ outMin scenario_state = F32.of_Z 0 /\ outMax scenario_state = F32.of_Z 255
   /\ outputSum scenario_state = F32.of_Z 10
   /\ lastInput scenario_state = F32.of_Z 10
   /\ lastError scenario_state = F32.of_Z 0
   /\ load scenario_world (myInput scenario_state) = F32.of_Z 10
   /\ load scenario_world (mySetpoint scenario_state) = F32.of_Z 20)
  /\
  let '(ret, s', w') := Compute now0 scenario_state scenario_world in
  ret = true
  /\ load w' (myOutput s') = F32.of_Z 35
  /\ GetPterm s' = F32.of_Z 20
  /\ GetIterm s' = F32.of_Z 5
  /\ F32.eqb (GetDterm s') (F32.of_Z 0) = true.
Proof.
  split.
  - vm_compute. repeat split.
  - vm_compute. repeat split.
Qed.

(** ** Rejected arguments *)

Lemma SetTunings_rejects (s : QuickPID) (Kp Ki Kd : float)
    (pm : pMode) (dm : dMode) (aw : iAwMode) :
  F32.ltb Kp (F32.of_Z 0) = true \/ F32.ltb Ki (F32.of_Z 0) = true
  \/ F32.ltb Kd (F32.of_Z 0) = true ->
  SetTunings Kp Ki Kd pm dm aw s = s.
Proof.
  intros H. unfold SetTunings.
  destruct H as [H | [H | H]]; rewrite H; rewrite ?orb_true_r; reflexivity.
Qed.

Lemma SetSampleTimeUs_rejects (s : QuickPID) (T : Z) :
  (T <= 0)%Z -> SetSampleTimeUs T s = s.
Proof.
  intros H. unfold SetSampleTimeUs.
  destruct (Z.ltb_spec 0 T) as [Hlt | _]; [lia | reflexivity].
Qed.

Lemma SetOutputLimits_rejects (s : QuickPID) (w : World) (Min Max : float) :
  F32.geb Min Max = true -> SetOutputLimits Min Max s w = (s, w).
Proof. intros H. unfold SetOutputLimits. rewrite H. reflexivity. Qed.

(** C4. A call of [SetTunings] with a negative gain, of [SetSampleTimeUs]
    with a period that is not positive, or of [SetOutputLimits] with
    [Min >= Max] returns normally and leaves the whole object and the
    caller's cells as they were. *)
Theorem rejected_calls_change_nothing (s : QuickPID) (w : World)
    (Kp Ki Kd : float) (pm : pMode) (dm : dMode) (aw : iAwMode)
    (T : Z) (Min Max : float) :
  F32.ltb Kp (F32.of_Z 0) = true \/ F32.ltb Ki (F32.of_Z 0) = true
  \/ F32.ltb Kd (F32.of_Z 0) = true ->
  (T <= 0)%Z ->
  F32.geb Min Max = true ->
  SetTunings Kp Ki Kd pm dm aw s = s
  /\ SetTunings_gains Kp Ki Kd s = s
  /\ SetSampleTimeUs T s = s
  /\ SetOutputLimits Min Max s w = (s, w).
Proof.
  intros Hneg HT Hlim. repeat split.
  - now apply SetTunings_rejects.
  - unfold SetTunings_gains. now apply SetTunings_rejects.
  - now apply SetSampleTimeUs_rejects.
  - now apply SetOutputLimits_rejects.
Qed.

Lemma rejected_calls_change_nothing_witness :
  SetTunings (F32.of_Z (-1)) (F32.of_Z 5) (F32.of_Z 1) pOnMeas dOnError iAwOff
    scenario_state = scenario_state
  /\ SetTunings_gains (F32.of_Z (-1)) (F32.of_Z 5) (F32.of_Z 1) scenario_state
     = scenario_state
  /\ SetSampleTimeUs 0 scenario_state = scenario_state
  /\ SetOutputLimits (F32.of_Z 255) (F32.of_Z 255) scenario_state scenario_world
     = (scenario_state, scenario_world).
Proof.
  apply (rejected_calls_change_nothing scenario_state scenario_world
           (F32.of_Z (-1)) (F32.of_Z 5) (F32.of_Z 1) pOnMeas dOnError iAwOff
           0 (F32.of_Z 255) (F32.of_Z 255)).
  - left. vm_compute. reflexivity.
  - lia.
  - vm_compute. reflexivity.
Defined.

(** ** Compute: the gate *)

(** [Compute] either does nothing and returns false, or returns true. *)
Lemma Compute_cases (now0 : Z) (s : QuickPID) (w : World) :
  Compute now0 s w = (false, s, w) \/ fst (fst (Compute now0 s w)) = true.
Proof.
  unfold Compute.
  destruct (Control_eqb (mode s) manual); [now left|].
  destruct (read_clock now0 s w) as [now timeChange].
  destruct (Control_eqb (mode s) timer || (sampleTimeUs s <=? timeChange)%Z);
    [right | now left].
  destruct (Compute_cycle now s w). reflexivity.
Qed.

(** [Compute] returns true exactly when the mode is not manual and the
    gate is open. *)
Lemma Compute_returns (now0 : Z) (s : QuickPID) (w : World) :
  fst (fst (Compute now0 s w))
  = negb (Control_eqb (mode s) manual) && gate_open s w.
Proof.
  unfold Compute, gate_open, read_clock.
  destruct (mode s), (_getMicros s) as [clk|];
    cbv [Control_eqb Control_ord Z.eqb negb andb orb snd]; try reflexivity;
    try (destruct (Compute_cycle _ s w); reflexivity);
    match goal with
    | |- context [(?a <=? ?b)%Z] => destruct (a <=? b)%Z
    end; try reflexivity; destruct (Compute_cycle _ s w); reflexivity.
Qed.

(** C6. In manual mode [Compute] returns false, whatever the clock and the
    cells hold; and a call that returns false leaves the object and the
    caller's cells unchanged. *)
Theorem Compute_false_is_noop (now0 : Z) (s : QuickPID) (w : World) :
  (mode s = manual -> fst (fst (Compute now0 s w)) = false)
  /\ (fst (fst (Compute now0 s w)) = false -> Compute now0 s w = (false, s, w)).
Proof.
  split.
  - intros Hm. unfold Compute. rewrite Hm. reflexivity.
  - intros Hret. destruct (Compute_cases now0 s w) as [H | H]; [exact H|].
    rewrite H in Hret. discriminate.
Qed.

Lemma Compute_false_is_noop_witness :
  fst (fst (Compute 7 scenario_constructed scenario_world)) = false
  /\ Compute 7 scenario_constructed scenario_world
     = (false, scenario_constructed, scenario_world).
Proof.
  destruct (Compute_false_is_noop 7 scenario_constructed scenario_world)
    as [Hidle Hnoop].
  assert (Hret : fst (fst (Compute 7 scenario_constructed scenario_world)) = false)
    by (apply Hidle; reflexivity).
  split; [exact Hret | exact (Hnoop Hret)].
Defined.

(** ** SetMode *)

Lemma SetMode_unfold (Mode : Control) (c : option tGetTimeMicros)
    (s : QuickPID) (w : World) :
  SetMode Mode c s w
  = set_getMicros None
      (set_mode Mode
         (if Control_eqb (mode s) manual && negb (Control_eqb Mode manual)
          then Initialize s w else s)).
Proof. reflexivity. Qed.

Lemma activates_test (s : QuickPID) (Mode : Control) :
  Control_eqb (mode s) manual && negb (Control_eqb Mode manual) = true
  <-> activates s Mode.
Proof.
  unfold activates. rewrite andb_true_iff, negb_true_iff.
  rewrite Control_eqb_eq, Control_eqb_neq. reflexivity.
Qed.

Lemma SetMode_members (Mode : Control) (c : option tGetTimeMicros)
    (s : QuickPID) (w : World) :
  let s' := SetMode Mode c s w in
  mode s' = Mode /\ _getMicros s' = None /\ lastTime s' = lastTime s
  /\ sampleTimeUs s' = sampleTimeUs s.
Proof.
  cbv zeta. rewrite SetMode_unfold.
  destruct (Control_eqb (mode s) manual && negb (Control_eqb Mode manual));
    repeat split.
Qed.

(** C2, on the code: whatever clock is passed to [SetMode] and whatever
    clock the object held before, the object holds no clock afterwards, and
    [lastTime] is not touched. *)
Theorem SetMode_discards_clock (Mode : Control) (c : option tGetTimeMicros)
    (s : QuickPID) (w : World) :
  _getMicros (SetMode Mode c s w) = None
  /\ lastTime (SetMode Mode c s w) = lastTime s.
Proof.
  destruct (SetMode_members Mode c s w) as (_ & Hc & Hl & _).
  split; [exact Hc | exact Hl].
Qed.

(** C5. A [SetMode] call that leaves manual mode sets the accumulator to the
    value of the output cell constrained to the limits and [lastInput] to the
    value of the input cell; with the limits in order, the accumulator is
    the output cell's value saturated to them (the lower limit for a value
    below, the upper limit for a value above, the value itself inside).  Any
    other [SetMode] call (between automatic and timer, or into manual)
    leaves both as they were. *)
Theorem SetMode_bumpless (Mode : Control) (c : option tGetTimeMicros)
    (s : QuickPID) (w : World) :
  (activates s Mode ->
     outputSum (SetMode Mode c s w)
       = CONSTRAIN (load w (myOutput s)) (outMin s) (outMax s)
     /\ lastInput (SetMode Mode c s w) = load w (myInput s)
     /\ (limits_ordered s ->
         clamped (outMin s) (outMax s) (load w (myOutput s))
           (outputSum (SetMode Mode c s w))))
  /\ (~ activates s Mode ->
     outputSum (SetMode Mode c s w) = outputSum s
     /\ lastInput (SetMode Mode c s w) = lastInput s)
  /\ mode (SetMode Mode c s w) = Mode.
Proof.
  rewrite SetMode_unfold.
  destruct (Control_eqb (mode s) manual && negb (Control_eqb Mode manual)) eqn:E.
  - apply activates_test in E.
    split; [intros _ | split; [|reflexivity]].
    + unfold Initialize. members.
      split; [reflexivity | split; [reflexivity|]].
      intros Hlim. now apply CONSTRAIN_clamped.
    + intros Hn. contradiction.
  - assert (Hn : ~ activates s Mode)
      by (rewrite <- activates_test; congruence).
    split; [intros H; contradiction | split; [|reflexivity]].
    intros _. split; reflexivity.
Qed.

Lemma SetMode_bumpless_witness :
  (outputSum (SetMode timer None scenario_constructed output_above_world)
     = F32.of_Z 255
   /\ outputSum (SetMode timer None scenario_constructed output_below_world)
     = F32.of_Z 0
   /\ outputSum (SetMode automatic None scenario_constructed scenario_world)
     = F32.of_Z 10
   /\ lastInput (SetMode automatic None scenario_constructed scenario_world)
     = F32.of_Z 10)
  /\ (outputSum (SetMode automatic None scenario_state output_above_world)
        = outputSum scenario_state
      /\ lastInput (SetMode automatic None scenario_state output_above_world)
        = lastInput scenario_state).
Proof.
  assert (Hman : mode scenario_constructed = manual) by reflexivity.
  assert (Hlim : limits_ordered scenario_constructed) by reflexivity.
  split; [split; [|split; [|split]]|].
  - destruct (SetMode_bumpless timer None scenario_constructed output_above_world)
      as ((_ & _ & Hcl) & _); [split; [exact Hman | discriminate]|].
    destruct (Hcl Hlim) as (_ & _ & _ & Habove & _).
    apply Habove. reflexivity.
  - destruct (SetMode_bumpless timer None scenario_constructed output_below_world)
      as ((_ & _ & Hcl) & _); [split; [exact Hman | discriminate]|].
    destruct (Hcl Hlim) as (_ & Hbelow & _).
    apply Hbelow. reflexivity.
  - destruct (SetMode_bumpless automatic None scenario_constructed scenario_world)
      as ((_ & _ & Hcl) & _); [split; [exact Hman | discriminate]|].
    destruct (Hcl Hlim) as (_ & _ & Hin & _).
    apply Hin; reflexivity.
  - destruct (SetMode_bumpless automatic None scenario_constructed scenario_world)
      as ((_ & Hli & _) & _); [split; [exact Hman | discriminate]|].
    exact Hli.
  - apply (SetMode_bumpless automatic None scenario_state output_above_world).
    intros [Hm _]. discriminate Hm.
Defined.

(** After activation with limits in order and a number in the output
    cell, the accumulator lies within the limits. *)
Lemma activation_accumulator_in_range (Mode : Control)
    (c : option tGetTimeMicros) (s : QuickPID) (w : World) :
  activates s Mode ->
  F32.leb (outMin s) (outMax s) = true ->
  F32.is_nan (load w (myOutput s)) = false ->
  F32.leb (outMin s) (outputSum (SetMode Mode c s w)) = true
  /\ F32.leb (outputSum (SetMode Mode c s w)) (outMax s) = true.
Proof.
  intros Hact Hlim Hnum. apply activates_test in Hact.
  rewrite SetMode_unfold, Hact. unfold Initialize. members.
  now apply CONSTRAIN_range.
Qed.

(** C9. [Initialize] changes the accumulator and [lastInput] and nothing
    else, reading the caller's cells without writing them; so a [SetMode]
    call that leaves manual mode keeps [lastError], the stored terms and
    every other member but the mode, the clock, the accumulator and
    [lastInput].  A controller activated right after construction still
    holds in [lastError] what its storage held before construction. *)
Theorem activation_frame (Mode : Control) (c : option tGetTimeMicros)
    (s : QuickPID) (w : World) :
  (let s' := Initialize s w in
   lastError s' = lastError s /\ same_terms s s' /\ error s' = error s
   /\ same_rawGains s s' /\ same_scaledGains s s' /\ same_links s s'
   /\ mode s' = mode s /\ same_selections s s' /\ same_limits s s'
   /\ sampleTimeUs s' = sampleTimeUs s /\ lastTime s' = lastTime s
   /\ _getMicros s' = _getMicros s)
  /\ (activates s Mode ->
      let s' := SetMode Mode c s w in
      lastError s' = lastError s /\ same_terms s s' /\ error s' = error s
      /\ same_rawGains s s' /\ same_scaledGains s s' /\ same_links s s'
      /\ same_selections s s' /\ same_limits s s'
      /\ sampleTimeUs s' = sampleTimeUs s /\ lastTime s' = lastTime s)
  /\ (forall raw i o sp Kp Ki Kd pm dm aw act clk,
      Mode <> manual ->
      lastError (SetMode Mode c
                   (fst (QuickPID_ctor raw i o sp Kp Ki Kd pm dm aw act clk w)) w)
      = lastError raw).
Proof.
  split; [|split].
  - cbv zeta. unfold same_terms, same_rawGains, same_scaledGains, same_links,
      same_selections, same_limits. repeat split.
  - intros Hact. apply activates_test in Hact.
    cbv zeta. rewrite SetMode_unfold, Hact.
    unfold same_terms, same_rawGains, same_scaledGains, same_links,
      same_selections, same_limits. repeat split.
  - intros raw i o sp Kp Ki Kd pm dm aw act clk HM.
    rewrite SetMode_unfold.
    unfold QuickPID_ctor, SetOutputLimits, SetControllerDirection, SetTunings.
    destruct (F32.geb (F32.of_Z 0) (F32.of_Z 255));
      destruct (F32.ltb Kp (F32.of_Z 0) || F32.ltb Ki (F32.of_Z 0)
                || F32.ltb Kd (F32.of_Z 0));
      destruct clk; simpl; destruct (negb (Control_eqb Mode manual)); reflexivity.
Qed.

Lemma activation_frame_witness :
  lastError (SetMode timer None scenario_constructed windup_world)
    = lastError scenario_constructed
  /\ same_terms scenario_constructed
       (SetMode timer None scenario_constructed windup_world).
Proof.
  destruct (activation_frame timer None scenario_constructed windup_world)
    as (_ & Hset & _).
  destruct Hset as (He & Ht & _); [split; [reflexivity | discriminate]|].
  split; [exact He | exact Ht].
Defined.

(** ** Tunings and sample period *)

(** C7. With gains that are at least zero and a positive sample period,
    [SetTunings] stores the gains as given for display, and the working
    coefficients are [kp = Kp], [ki = Ki * T] and [kd = Kd / T], where [T]
    is the period in seconds, [sampleTimeUs / 1000000]. *)
Theorem SetTunings_scales (s : QuickPID) (Kp Ki Kd : float)
    (pm : pMode) (dm : dMode) (aw : iAwMode) :
  F32.geb Kp (F32.of_Z 0) = true ->
  F32.geb Ki (F32.of_Z 0) = true ->
  F32.geb Kd (F32.of_Z 0) = true ->
  (0 < sampleTimeUs s)%Z ->
  let T := F32.of_Z (sampleTimeUs s) / F32.of_Z 1000000 in
  let s' := SetTunings Kp Ki Kd pm dm aw s in
  GetKp s' = Kp /\ GetKi s' = Ki /\ GetKd s' = Kd
  /\ kp s' = Kp /\ ki s' = Ki * T /\ kd s' = Kd / T.
Proof.
  intros HKp HKi HKd _. cbv zeta. unfold SetTunings.
  rewrite (F32_nonneg_not_neg _ HKp), (F32_nonneg_not_neg _ HKi),
    (F32_nonneg_not_neg _ HKd).
  repeat split.
Qed.

Lemma SetTunings_scales_witness :
  let s' := SetTunings (F32.of_Z 2) (F32.of_Z 5) (F32.of_Z 1)
              pOnError dOnMeas iAwCondition scenario_state in
  GetKp s' = F32.of_Z 2 /\ GetKi s' = F32.of_Z 5 /\ GetKd s' = F32.of_Z 1
  /\ kp s' = F32.of_Z 2 /\ ki s' = F32.half /\ kd s' = F32.of_Z 10.
Proof.
  apply (SetTunings_scales scenario_state (F32.of_Z 2) (F32.of_Z 5) (F32.of_Z 1)
           pOnError dOnMeas iAwCondition); vm_compute; reflexivity.
Defined.

(** C8. With a positive stored period [T1] and a positive new period [T2],
    [SetSampleTimeUs T2] multiplies [ki] by the ratio [T2 / T1], divides [kd]
    by that ratio, stores [T2], and leaves every other member as it was. *)
Theorem SetSampleTimeUs_rescales (s : QuickPID) (T2 : Z) :
  (0 < sampleTimeUs s)%Z ->
  (0 < T2)%Z ->
  let ratio := F32.of_Z T2 / F32.of_Z (sampleTimeUs s) in
  let s' := SetSampleTimeUs T2 s in
  ki s' = ki s * ratio /\ kd s' = kd s / ratio /\ sampleTimeUs s' = T2
  /\ kp s' = kp s /\ same_rawGains s s' /\ outputSum s' = outputSum s
  /\ same_terms s s' /\ error s' = error s /\ lastError s' = lastError s
  /\ lastInput s' = lastInput s /\ lastTime s' = lastTime s
  /\ same_links s s' /\ mode s' = mode s /\ same_selections s s'
  /\ same_limits s s' /\ _getMicros s' = _getMicros s.
Proof.
  intros _ HT2. cbv zeta. unfold SetSampleTimeUs.
  destruct (Z.ltb_spec 0 T2) as [_ | Hle]; [|lia].
  unfold same_terms, same_rawGains, same_links, same_selections, same_limits.
  repeat split.
Qed.

Lemma SetSampleTimeUs_rescales_witness :
  let s' := SetSampleTimeUs 200000 scenario_state in
  ki s' = F32.of_Z 1 /\ kd s' = F32.of_Z 5 /\ sampleTimeUs s' = 200000%Z
  /\ kp s' = F32.of_Z 2 /\ outputSum s' = F32.of_Z 10.
Proof.
  destruct (SetSampleTimeUs_rescales scenario_state 200000)
    as (H1 & H2 & H3 & H4 & _ & H5 & _);
    [vm_compute; reflexivity | lia |].
  cbv zeta. exact (conj H1 (conj H2 (conj H3 (conj H4 H5)))).
Defined.

(** ** Construction with a clock *)

Lemma ctor_members (raw : QuickPID) (i o sp : addr) (Kp Ki Kd : float)
    (pm : pMode) (dm : dMode) (aw : iAwMode) (act : Action)
    (clk : option tGetTimeMicros) (w : World) :
  let s := fst (QuickPID_ctor raw i o sp Kp Ki Kd pm dm aw act clk w) in
  mode s = manual /\ sampleTimeUs s = 100000%Z /\ _getMicros s = clk
  /\ lastTime s = match clk with
                  | Some c => u32 (c (ticks w) - 100000)
                  | None => lastTime raw
                  end
  /\ snd (QuickPID_ctor raw i o sp Kp Ki Kd pm dm aw act clk w) = w.
Proof.
  cbv zeta.
  unfold QuickPID_ctor, SetOutputLimits, SetControllerDirection, SetTunings,
    default_members.
  destruct (F32.geb (F32.of_Z 0) (F32.of_Z 255));
    destruct (F32.ltb Kp (F32.of_Z 0) || F32.ltb Ki (F32.of_Z 0)
              || F32.ltb Kd (F32.of_Z 0));
    destruct clk; members;
    cbv [Control_eqb Control_ord Z.eqb negb]; members; repeat split.
Qed.

(** An object in automatic mode without a clock never opens the gate. *)
Lemma Compute_automatic_no_clock (now0 : Z) (s : QuickPID) (w : World) :
  mode s = automatic -> _getMicros s = None -> (0 < sampleTimeUs s)%Z ->
  Compute now0 s w = (false, s, w).
Proof.
  intros Hm Hc HT. unfold Compute, read_clock. rewrite Hm, Hc.
  cbv [Control_eqb Control_ord Z.eqb orb].
  destruct (Z.leb_spec (sampleTimeUs s) 0) as [Hle | _]; [lia | reflexivity].
Qed.

(** The gate of an object in automatic mode that holds a clock: with
    [lastTime] one period before the reading [t0], a later reading opens the
    gate as long as the 32-bit difference does not wrap. *)
Lemma gate_opens_with_clock (now0 : Z) (s : QuickPID) (w : World)
    (clk : tGetTimeMicros) (t0 : Z) :
  mode s = automatic ->
  _getMicros s = Some clk ->
  lastTime s = u32 (t0 - sampleTimeUs s) ->
  (0 < sampleTimeUs s)%Z ->
  (t0 <= clk (ticks w))%Z ->
  (clk (ticks w) - t0 + sampleTimeUs s < 2 ^ 32)%Z ->
  fst (fst (Compute now0 s w)) = true.
Proof.
  intros Hm Hc Hl HT Hmono Hwrap.
  assert (Hgate : (sampleTimeUs s <=? u32 (u32 (clk (ticks w)) - lastTime s))%Z = true).
  { rewrite Hl. unfold u32. rewrite <- Zminus_mod.
    replace (clk (ticks w) - (t0 - sampleTimeUs s))%Z
      with (clk (ticks w) - t0 + sampleTimeUs s)%Z by ring.
    rewrite Z.mod_small by lia. apply Z.leb_le. lia. }
  unfold Compute, read_clock. rewrite Hm, Hc.
  cbv [Control_eqb Control_ord Z.eqb orb]. rewrite Hgate.
  destruct (Compute_cycle _ s w). reflexivity.
Qed.

(** C10, on the code.  The constructor does set [lastTime] one period before
    the reading of the clock it is given.  But the only way out of manual
    mode is [SetMode], which drops the clock: so the first [Compute] in
    automatic mode after construction with a clock, however much later,
    returns false and computes nothing. *)
Theorem first_Compute_after_construction (raw : QuickPID) (i o sp : addr)
    (Kp Ki Kd : float) (pm : pMode) (dm : dMode) (aw : iAwMode) (act : Action)
    (clk : tGetTimeMicros) (w0 w1 w2 : World) (now0 : Z) :
  let s0 := fst (QuickPID_ctor raw i o sp Kp Ki Kd pm dm aw act (Some clk) w0) in
  let s1 := SetMode automatic (Some clk) s0 w1 in
  lastTime s0 = u32 (clk (ticks w0) - sampleTimeUs s0)
  /\ mode s1 = automatic
  /\ Compute now0 s1 w2 = (false, s1, w2).
Proof.
  cbv zeta.
  destruct (ctor_members raw i o sp Kp Ki Kd pm dm aw act (Some clk) w0)
    as (Hm & HT & Hc & Hl & _).
  cbv zeta in Hm, HT, Hc, Hl.
  destruct (SetMode_members automatic (Some clk)
              (fst (QuickPID_ctor raw i o sp Kp Ki Kd pm dm aw act (Some clk) w0)) w1)
    as (Hm1 & Hc1 & _ & HT1).
  cbv zeta in Hm1, Hc1, HT1.
  split; [rewrite HT; exact Hl | split; [exact Hm1|]].
  apply Compute_automatic_no_clock; [exact Hm1 | exact Hc1 |].
  rewrite HT1, HT. lia.
Qed.

(** ** Compute: the conditional anti-windup *)



(** The accumulator stored by the block when anti-windup is not off. *)
Lemma Compute_cycle_outputSum (now : Z) (s : QuickPID) (w : World) :
  iawmode s <> iAwOff ->
  outputSum (fst (Compute_cycle now s w))
  = CONSTRAIN (outputSum s + iTerm (fst (Compute_cycle now s w)) - cycle_pmTerm s w)
      (outMin s) (outMax s).
Proof.
  destruct s; cbn [iawmode]; intros Hoff.
  destruct action0, pmode0, iawmode0; try congruence; run_cycle; reflexivity.
Qed.




(** * Further properties of the code *)

(** ** More on [float] *)

Lemma of_Z_0 : F32.of_Z 0 = S754_zero false.
Proof. reflexivity. Qed.

Lemma F32_not_geb_ltb (x y : float) :
  F32.is_nan x = false -> F32.is_nan y = false ->
  F32.geb x y = false -> F32.ltb x y = true.
Proof.
  unfold F32.geb, F32.ltb, SFleb, SFltb. intros Hx Hy.
  rewrite (SFcompare_antisym x y).
  destruct (SFcompare x y) as [[ | | ]|] eqn:E; simpl; try congruence.
  destruct x, y; simpl in *; discriminate.
Qed.



Lemma sign_clear_not_negative (x : float) : sign_clear x = true -> not_negative x.
Proof.
  unfold not_negative. rewrite of_Z_0.
  destruct x as [s|s| |s m e]; try destruct s; cbv; congruence.
Qed.

Lemma not_negative_cases (x : float) :
  not_negative x -> sign_clear x = true \/ is_zero x = true.
Proof.
  unfold not_negative. rewrite of_Z_0.
  destruct x as [s|s| |s m e]; try destruct s; cbv; auto; discriminate.
Qed.

Lemma binary_round_aux_sign_clear (mx ex : Z) (lx : location) :
  sign_clear (binary_round_aux F32.prec F32.emax false mx ex lx) = true.
Proof.
  unfold binary_round_aux.
  destruct (shr_fexp F32.prec F32.emax mx ex lx) as [mrs' e'].
  destruct (shr_fexp F32.prec F32.emax _ e' loc_Exact) as [mrs'' e''].
  destruct (shr_m mrs''); [reflexivity | | reflexivity].
  destruct (Z.leb e'' _); reflexivity.
Qed.

Lemma of_Z_sign_clear (z : Z) : (0 <= z)%Z -> sign_clear (F32.of_Z z) = true.
Proof.
  intros Hz. unfold F32.of_Z, binary_normalize.
  destruct z as [|p|p]; [reflexivity | | lia].
  unfold binary_round.
  destruct (shl_align p 0 _) as [mz ez]. apply binary_round_aux_sign_clear.
Qed.

Lemma div_sign_clear (x y : float) :
  sign_clear x = true -> sign_clear y = true -> sign_clear (x / y) = true.
Proof.
  destruct x as [sx|sx| |sx mx ex], y as [sy|sy| |sy my ey];
    try destruct sx; try destruct sy; try discriminate; try reflexivity.
  intros _ _. unfold F32.div, SFdiv.
  destruct (SFdiv_core_binary _ _ _ _ _ _) as [[mz ez] lz].
  apply binary_round_aux_sign_clear.
Qed.

Lemma mul_not_negative (x y : float) :
  not_negative x -> sign_clear y = true -> not_negative (x * y).
Proof.
  intros Hx Hy. destruct (not_negative_cases x Hx) as [Hs | Hz].
  - apply sign_clear_not_negative.
    destruct x as [sx|sx| |sx mx ex], y as [sy|sy| |sy my ey];
      try destruct sx; try destruct sy; try discriminate; try reflexivity.
    apply binary_round_aux_sign_clear.
  - unfold not_negative. rewrite of_Z_0.
    destruct x as [sx| | |]; try discriminate.
    destruct y as [sy|sy| |sy my ey]; destruct sx; try destruct sy; reflexivity.
Qed.

Lemma div_not_negative (x y : float) :
  not_negative x -> sign_clear y = true -> not_negative (x / y).
Proof.
  intros Hx Hy. destruct (not_negative_cases x Hx) as [Hs | Hz].
  - apply sign_clear_not_negative. now apply div_sign_clear.
  - unfold not_negative. rewrite of_Z_0.
    destruct x as [sx| | |]; try discriminate.
    destruct y as [sy|sy| |sy my ey]; destruct sx; try destruct sy; reflexivity.
Qed.

(** A finite number minus itself is the positive zero. *)
Lemma sub_diag (x : float) : is_finite x = true -> x - x = S754_zero false.
Proof.
  destruct x as [s|s| |s m e]; try discriminate; intros _.
  - destruct s; reflexivity.
  - unfold F32.sub, SFsub. rewrite Z.sub_diag. reflexivity.
Qed.

(** A finite number times a zero is a zero. *)
Lemma mul_zero_r (x y : float) :
  is_finite x = true -> is_zero y = true -> is_zero (x * y) = true.
Proof.
  destruct x as [s|s| |s m e], y as [t|t| |t n f]; try discriminate; reflexivity.
Qed.

(** ** What a cycle writes *)

Ltac run_cycle_keep_cells :=
  cbv - [F32.add F32.sub F32.mul F32.div F32.opp F32.ltb F32.gtb F32.leb F32.geb
         F32.of_Z F32.half F32.to_bool CONSTRAIN andb orb load store].

Lemma load_store_same (w : World) (p : addr) (v : float) :
  load (store w p v) p = v.
Proof. unfold load, store. cbn [cells]. now rewrite Nat.eqb_refl. Qed.

Lemma load_store_other (w : World) (p q : addr) (v : float) :
  q <> p -> load (store w p v) q = load w q.
Proof.
  intros H. unfold load, store. cbn [cells].
  destruct (Nat.eqb_spec q p); [contradiction | reflexivity].
Qed.

Lemma ticks_store (w : World) (p : addr) (v : float) : ticks (store w p v) = ticks w.
Proof. reflexivity. Qed.

(** The world after the block: one store, to the output cell. *)
Lemma Compute_cycle_world (now : Z) (s : QuickPID) (w : World) :
  let s' := fst (Compute_cycle now s w) in
  snd (Compute_cycle now s w)
  = store w (myOutput s)
      (CONSTRAIN (outputSum s' + cycle_peTerm s w + dTerm s') (outMin s) (outMax s)).
Proof.
  destruct s. destruct action0, pmode0, iawmode0; run_cycle_keep_cells; reflexivity.
Qed.

(** The members that the block leaves alone. *)
Lemma Compute_cycle_frame (now : Z) (s : QuickPID) (w : World) :
  let s' := fst (Compute_cycle now s w) in
  same_tuning s s' /\ same_links s s' /\ same_selections s s'
  /\ mode s' = mode s /\ _getMicros s' = _getMicros s.
Proof.
  destruct s. destruct pmode0, iawmode0; run_cycle; repeat split.
Qed.

(** The history that the block records. *)
Lemma Compute_cycle_history (now : Z) (s : QuickPID) (w : World) :
  let s' := fst (Compute_cycle now s w) in
  error s' = cycle_error s w /\ lastError s' = cycle_error s w
  /\ lastInput s' = load w (myInput s) /\ lastTime s' = now
  /\ pTerm s' = cycle_peTerm s w - cycle_pmTerm s w.
Proof.
  destruct s. destruct action0, pmode0, iawmode0; run_cycle; repeat split.
Qed.

(** [Compute], as one of its two outcomes. *)
Lemma Compute_outcome (now0 : Z) (s : QuickPID) (w : World) :
  Compute now0 s w = (false, s, w)
  \/ exists now s' w',
       Compute_cycle now s w = (s', w')
       /\ Compute now0 s w = (true, s', w')
       /\ (now = now0 \/ mode s = automatic).
Proof.
  unfold Compute, read_clock.
  destruct (Control_eqb (mode s) manual); [now left|].
  destruct (mode s) eqn:Hm, (_getMicros s) as [clk|];
    cbv [Control_eqb Control_ord Z.eqb orb];
    try match goal with
        | |- context [(?a <=? ?b)%Z] => destruct (a <=? b)%Z
        end;
    try (now left);
    right;
    match goal with
    | |- context [Compute_cycle ?n s w] =>
        exists n; destruct (Compute_cycle n s w) as [s' w']; exists s', w'; auto
    end.
Qed.

(** What the block leaves alone, in the object and in the world. *)
Lemma Compute_cycle_keeps (now : Z) (s : QuickPID) (w : World) :
  same_tuning s (fst (Compute_cycle now s w))
  /\ same_links s (fst (Compute_cycle now s w))
  /\ same_selections s (fst (Compute_cycle now s w))
  /\ mode (fst (Compute_cycle now s w)) = mode s
  /\ _getMicros (fst (Compute_cycle now s w)) = _getMicros s
  /\ (forall p, p <> myOutput s -> load (snd (Compute_cycle now s w)) p = load w p)
  /\ ticks (snd (Compute_cycle now s w)) = ticks w.
Proof.
  destruct (Compute_cycle_frame now s w) as (Ht & Hl & Hs & Hm & Hc).
  pose proof (Compute_cycle_world now s w) as Hw. cbv zeta in Hw.
  do 5 (split; [assumption|]).
  split; [intros p Hp | ]; rewrite Hw.
  - now apply load_store_other.
  - apply ticks_store.
Qed.

Lemma same_members_refl (s : QuickPID) :
  same_tuning s s /\ same_links s s /\ same_selections s s.
Proof.
  unfold same_tuning, same_rawGains, same_scaledGains, same_limits, same_links,
    same_selections. repeat split.
Qed.

Lemma Compute_keeps (now0 : Z) (s : QuickPID) (w : World) :
  same_tuning s (snd (fst (Compute now0 s w)))
  /\ same_links s (snd (fst (Compute now0 s w)))
  /\ same_selections s (snd (fst (Compute now0 s w)))
  /\ mode (snd (fst (Compute now0 s w))) = mode s
  /\ _getMicros (snd (fst (Compute now0 s w))) = _getMicros s
  /\ (forall p, p <> myOutput s -> load (snd (Compute now0 s w)) p = load w p)
  /\ ticks (snd (Compute now0 s w)) = ticks w.
Proof.
  generalize (Compute_outcome now0 s w). generalize (Compute now0 s w).
  intros r [H | (now & s' & w' & Hc & H & _)]; subst r; cbn [fst snd].
  - destruct (same_members_refl s) as (Ht & Hl & Hs). repeat split; assumption.
  - pose proof (Compute_cycle_keeps now s w) as K.
    rewrite Hc in K. exact K.
Qed.

(** X1. [Compute] never touches the configuration: gains, limits, period,
    links, mode, selections and clock are as before, whatever it returns.
    Of the caller's cells it writes at most the output cell, and it leaves
    the tick counter alone. *)
Theorem Compute_frame (now0 : Z) (s : QuickPID) (w : World) :
  let s' := snd (fst (Compute now0 s w)) in
  let w' := snd (Compute now0 s w) in
  same_tuning s s' /\ same_links s s' /\ same_selections s s'
  /\ mode s' = mode s /\ _getMicros s' = _getMicros s
  /\ (forall p, p <> myOutput s -> load w' p = load w p)
  /\ ticks w' = ticks w.
Proof. cbv zeta. apply Compute_keeps. Qed.

(** ** The output stays within the limits *)

Lemma ltb_limits_leb (s : QuickPID) :
  limits_ordered s -> F32.leb (outMin s) (outMax s) = true.
Proof. apply F32_ltb_leb. Qed.

Lemma Compute_writes_in_range (now0 : Z) (s : QuickPID) (w : World) :
  fst (fst (Compute now0 s w)) = true ->
  F32.leb (outMin s) (outMax s) = true ->
  in_range (outMin s) (outMax s) (load (snd (Compute now0 s w)) (myOutput s)) = true
  /\ (iawmode s <> iAwOff ->
      in_range (outMin s) (outMax s) (outputSum (snd (fst (Compute now0 s w)))) = true).
Proof.
  generalize (Compute_outcome now0 s w). generalize (Compute now0 s w).
  intros r [H | (now & s' & w' & Hc & H & _)]; subst r; cbn [fst snd];
    [discriminate|].
  intros _ Hlim.
  pose proof (Compute_cycle_world now s w) as Hw. cbv zeta in Hw.
  pose proof (Compute_cycle_outputSum now s w) as Hsum.
  rewrite Hc in Hw, Hsum. cbn [fst snd] in Hw, Hsum.
  split.
  - rewrite Hw, load_store_same. now apply CONSTRAIN_saturates.
  - intros Hoff. rewrite (Hsum Hoff). now apply CONSTRAIN_saturates.
Qed.

(** X2. With limits in order, the value that a computing call of [Compute]
    writes to the output cell lies within the limits, whatever the gains,
    the input and the setpoint are (infinities and NaN included); and unless
    anti-windup is off, so does the accumulator. *)
Theorem Compute_output_in_range (now0 : Z) (s : QuickPID) (w : World) :
  fst (fst (Compute now0 s w)) = true ->
  F32.leb (outMin s) (outMax s) = true ->
  let s' := snd (fst (Compute now0 s w)) in
  let w' := snd (Compute now0 s w) in
  in_range (outMin s) (outMax s) (load w' (myOutput s)) = true
  /\ (iawmode s <> iAwOff -> in_range (outMin s) (outMax s) (outputSum s') = true).
Proof. intros Hret Hlim. cbv zeta. now apply Compute_writes_in_range. Qed.

Lemma Compute_output_in_range_witness :
  in_range (F32.of_Z 0) (F32.of_Z 255)
    (load (snd (Compute 0 scenario_state windup_world)) p_out) = true
  /\ in_range (F32.of_Z 0) (F32.of_Z 255)
       (outputSum (snd (fst (Compute 0 scenario_state windup_world)))) = true.
Proof.
  assert (Hret : fst (fst (Compute 0 scenario_state windup_world)) = true)
    by (vm_compute; reflexivity).
  assert (Hlim : F32.leb (outMin scenario_state) (outMax scenario_state) = true)
    by (vm_compute; reflexivity).
  destruct (Compute_output_in_range 0 scenario_state windup_world Hret Hlim)
    as [Hout Hsum].
  split; [exact Hout | apply Hsum; discriminate].
Defined.

(** ** The local [now] *)

Lemma Compute_unfold (now0 : Z) (s : QuickPID) (w : World) :
  Compute now0 s w
  = if Control_eqb (mode s) manual then (false, s, w)
    else if Control_eqb (mode s) timer
            || (sampleTimeUs s <=? snd (read_clock now0 s w))%Z
         then (true, fst (Compute_cycle (fst (read_clock now0 s w)) s w),
                     snd (Compute_cycle (fst (read_clock now0 s w)) s w))
         else (false, s, w).
Proof.
  unfold Compute. destruct (Control_eqb (mode s) manual); [reflexivity|].
  destruct (read_clock now0 s w) as [now timeChange]. cbn [fst snd].
  destruct (Control_eqb (mode s) timer || (sampleTimeUs s <=? timeChange)%Z);
    [|reflexivity].
  destruct (Compute_cycle now s w). reflexivity.
Qed.




(** ** Histories of use *)

(** A property kept by every call is kept along a history. *)
Lemma run_invariant (P : QuickPID -> Prop) (ok : Event -> Prop) :
  (forall c s w, ok (by_call c) -> P s -> P (fst (do_call c s w))) ->
  forall evs s w, Forall ok evs -> P s -> P (fst (run evs s w)).
Proof.
  intros Hstep evs.
  induction evs as [|ev evs IH]; intros s w Hok HP; [exact HP|].
  inversion Hok as [|? ? Hev Hrest]; subst.
  destruct ev as [c | w']; cbn [run].
  - specialize (Hstep c s w Hev HP).
    destruct (do_call c s w) as [s1 w1]. now apply IH.
  - now apply IH.
Qed.

Ltac step_call :=
  unfold SetOutputLimits, SetTunings_gains, SetTunings, SetControllerDirection,
    SetSampleTimeUs, SetProportionalMode, SetDerivativeMode, SetAntiWindupMode;
  repeat match goal with
         | |- context [if ?b then _ else _] => destruct b eqn:?
         end;
  members.

Lemma do_call_clock_dropped (c : Call) (s : QuickPID) (w : World) :
  clock_dropped s -> clock_dropped (fst (do_call c s w)).
Proof.
  unfold clock_dropped. intros [Hc HT]. destruct c; cbn [do_call fst].
  - destruct (SetMode_members Mode getMicros s w) as (_ & Hn & _ & Hs).
    rewrite Hn, Hs. auto.
  - destruct (Compute_keeps now0 s w)
      as ((_ & _ & _ & Hs) & _ & _ & Hm & Hg & _).
    rewrite Hm, Hg, Hs. auto.
  - step_call; auto.
  - step_call; auto.
  - step_call; auto.
  - step_call; auto.
  - step_call; auto. split; [exact Hc|]. now apply Z.ltb_lt.
  - step_call; auto.
  - step_call; auto.
  - step_call; auto.
Qed.

Lemma ctor_clock_dropped (raw : QuickPID) (i o sp : addr) (Kp Ki Kd : float)
    (pm : pMode) (dm : dMode) (aw : iAwMode) (act : Action)
    (clk : option tGetTimeMicros) (w : World) :
  clock_dropped (fst (QuickPID_ctor raw i o sp Kp Ki Kd pm dm aw act clk w)).
Proof.
  destruct (ctor_members raw i o sp Kp Ki Kd pm dm aw act clk w)
    as (Hm & HT & _).
  unfold clock_dropped. rewrite Hm, HT. split; [now left | lia].
Qed.

(** X4. However an object is constructed and used afterwards (any calls,
    any clock passed to any of them, any change of the cells and of the time
    in between), [Compute] returns true exactly when the mode is timer: in
    automatic mode it never computes. *)
Theorem Compute_computes_only_in_timer_mode (raw : QuickPID) (i o sp : addr)
    (Kp Ki Kd : float) (pm : pMode) (dm : dMode) (aw : iAwMode) (act : Action)
    (clk : option tGetTimeMicros) (w0 : World) (evs : list Event)
    (now0 : Z) (w : World) :
  let s0 := fst (QuickPID_ctor raw i o sp Kp Ki Kd pm dm aw act clk w0) in
  let s := fst (run evs s0 w0) in
  (fst (fst (Compute now0 s w)) = true <-> mode s = timer)
  /\ (mode s = automatic -> Compute now0 s w = (false, s, w)).
Proof.
  cbv zeta.
  assert (Hinv : clock_dropped
            (fst (run evs
                    (fst (QuickPID_ctor raw i o sp Kp Ki Kd pm dm aw act clk w0))
                    w0))).
  { apply (run_invariant clock_dropped (fun _ => True)).
    - intros c s w1 _. apply do_call_clock_dropped.
    - apply Forall_forall. auto.
    - apply ctor_clock_dropped. }
  revert Hinv. generalize (fst (run evs
    (fst (QuickPID_ctor raw i o sp Kp Ki Kd pm dm aw act clk w0)) w0)).
  intros s [Hc HT].
  assert (Hauto : mode s = automatic -> Compute now0 s w = (false, s, w)).
  { intros Hm. apply Compute_automatic_no_clock; [exact Hm | | exact HT].
    destruct Hc as [Hc | Hc]; [congruence | exact Hc]. }
  split; [split|exact Hauto].
  - intros H. destruct (mode s) eqn:Hm; [| |reflexivity].
    + rewrite Compute_returns, Hm in H. discriminate H.
    + rewrite (Hauto eq_refl) in H. discriminate H.
  - intros Hm. rewrite Compute_returns. unfold gate_open. rewrite Hm. reflexivity.
Qed.

(** ** The accumulator stays within the limits *)

Lemma do_call_accumulator_guarded (c : Call) (s : QuickPID) (w : World) :
  numeric_limits (by_call c) /\ keeps_antiwindup (by_call c) ->
  accumulator_guarded s -> accumulator_guarded (fst (do_call c s w)).
Proof.
  unfold accumulator_guarded, limits_ordered.
  intros [Hnum Hkeep] (Hlim & Haw & Hacc).
  pose proof (F32_ltb_leb _ _ Hlim) as Hle.
  destruct c; cbn [do_call fst numeric_limits keeps_antiwindup] in *.
  - (* SetMode *)
    rewrite SetMode_unfold.
    destruct (Control_eqb (mode s) manual && negb (Control_eqb Mode manual)) eqn:E;
      unfold Initialize; members.
    + repeat split; auto. intros _. now apply CONSTRAIN_saturates.
    + repeat split; auto. intros HM. apply Hacc. intros Hs.
      assert (Hact : activates s Mode) by (split; assumption).
      apply activates_test in Hact. congruence.
  - (* Compute *)
    destruct (Compute_keeps now0 s w)
      as ((_ & _ & (Hmin & Hmax) & _) & _ & (_ & _ & _ & Hi) & Hm & _).
    rewrite Hmin, Hmax, Hi, Hm. repeat split; auto. intros Hact.
    destruct (Compute_cases now0 s w) as [H | H].
    + rewrite H. cbn [fst snd]. auto.
    + now apply (Compute_writes_in_range now0 s w H Hle).
  - (* SetOutputLimits *)
    destruct Hnum as [HMin HMax].
    unfold SetOutputLimits. destruct (F32.geb Min Max) eqn:Hge; [auto|].
    pose proof (F32_not_geb_ltb Min Max HMin HMax Hge) as Hlt.
    members. destruct (negb (Control_eqb (mode s) manual)) eqn:Hact; members.
    + repeat split; auto. intros _.
      apply CONSTRAIN_saturates. now apply F32_ltb_leb.
    + repeat split; auto. intros Hm.
      apply negb_false_iff, Control_eqb_eq in Hact. contradiction.
  - step_call; auto.
  - step_call; auto.
  - step_call; auto.
  - step_call; auto.
  - step_call; auto.
  - step_call; auto.
  - step_call; auto.
Qed.

Lemma ctor_accumulator_guarded (raw : QuickPID) (i o sp : addr) (Kp Ki Kd : float)
    (pm : pMode) (dm : dMode) (aw : iAwMode) (act : Action)
    (clk : option tGetTimeMicros) (w : World) :
  aw <> iAwOff ->
  accumulator_guarded (fst (QuickPID_ctor raw i o sp Kp Ki Kd pm dm aw act clk w)).
Proof.
  intros Haw. unfold accumulator_guarded, limits_ordered.
  unfold QuickPID_ctor, SetOutputLimits, SetControllerDirection, SetTunings,
    default_members.
  change (F32.geb (F32.of_Z 0) (F32.of_Z 255)) with false. cbv iota.
  destruct (F32.ltb Kp (F32.of_Z 0) || F32.ltb Ki (F32.of_Z 0)
            || F32.ltb Kd (F32.of_Z 0));
    destruct clk; members;
    cbv [Control_eqb Control_ord Z.eqb negb]; members;
    (split; [reflexivity | split; [auto; discriminate | intros H; congruence]]).
Qed.

(** X5. Take an object constructed with an anti-windup mode other than off
    and used in any way that never selects off and passes numbers as limits.
    Then the limits stay in strict order, and whenever the controller is
    active the accumulator lies within them: the integral cannot wind up
    beyond the output range. *)
Theorem accumulator_never_winds_up (raw : QuickPID) (i o sp : addr)
    (Kp Ki Kd : float) (pm : pMode) (dm : dMode) (aw : iAwMode) (act : Action)
    (clk : option tGetTimeMicros) (w0 : World) (evs : list Event) :
  aw <> iAwOff ->
  Forall (fun ev => numeric_limits ev /\ keeps_antiwindup ev) evs ->
  let s0 := fst (QuickPID_ctor raw i o sp Kp Ki Kd pm dm aw act clk w0) in
  let s := fst (run evs s0 w0) in
  limits_ordered s
  /\ (mode s <> manual -> in_range (outMin s) (outMax s) (outputSum s) = true).
Proof.
  intros Haw Hevs. cbv zeta.
  assert (Hinv : accumulator_guarded
            (fst (run evs
                    (fst (QuickPID_ctor raw i o sp Kp Ki Kd pm dm aw act clk w0))
                    w0))).
  { apply (run_invariant accumulator_guarded
             (fun ev => numeric_limits ev /\ keeps_antiwindup ev)).
    - intros c s w1. apply do_call_accumulator_guarded.
    - exact Hevs.
    - now apply ctor_accumulator_guarded. }
  destruct Hinv as (Hlim & _ & Hacc). split; assumption.
Qed.

Lemma accumulator_never_winds_up_witness :
  let s0 := fst (QuickPID_ctor zero_storage p_in p_out p_set
                   (F32.of_Z 2) (F32.of_Z 5) (F32.of_Z 1)
                   pOnError dOnMeas iAwCondition direct None scenario_world0) in
  let s := fst (run sample_history s0 scenario_world0) in
  limits_ordered s
  /\ (mode s <> manual -> in_range (outMin s) (outMax s) (outputSum s) = true).
Proof.
  apply (accumulator_never_winds_up zero_storage p_in p_out p_set
           (F32.of_Z 2) (F32.of_Z 5) (F32.of_Z 1)
           pOnError dOnMeas iAwCondition direct None scenario_world0
           sample_history).
  - discriminate.
  - unfold sample_history. repeat constructor; discriminate.
Defined.

(** ** The limits stay in order *)

Lemma do_call_limits_ordered (c : Call) (s : QuickPID) (w : World) :
  numeric_limits (by_call c) ->
  limits_ordered s -> limits_ordered (fst (do_call c s w)).
Proof.
  unfold limits_ordered. intros Hnum Hlim.
  destruct c; cbn [do_call fst numeric_limits] in *.
  - rewrite SetMode_unfold.
    destruct (Control_eqb (mode s) manual && negb (Control_eqb Mode manual));
      unfold Initialize; members; exact Hlim.
  - destruct (Compute_keeps now0 s w) as ((_ & _ & (Hmin & Hmax) & _) & _).
    rewrite Hmin, Hmax. exact Hlim.
  - destruct Hnum as [HMin HMax].
    unfold SetOutputLimits. destruct (F32.geb Min Max) eqn:Hge; [exact Hlim|].
    pose proof (F32_not_geb_ltb Min Max HMin HMax Hge) as Hlt.
    members. destruct (negb (Control_eqb (mode s) manual)); members; exact Hlt.
  - step_call; auto.
  - step_call; auto.
  - step_call; auto.
  - step_call; auto.
  - step_call; auto.
  - step_call; auto.
  - step_call; auto.
Qed.

Lemma ctor_limits (raw : QuickPID) (i o sp : addr) (Kp Ki Kd : float)
    (pm : pMode) (dm : dMode) (aw : iAwMode) (act : Action)
    (clk : option tGetTimeMicros) (w : World) :
  let s := fst (QuickPID_ctor raw i o sp Kp Ki Kd pm dm aw act clk w) in
  outMin s = F32.of_Z 0 /\ outMax s = F32.of_Z 255.
Proof.
  cbv zeta.
  unfold QuickPID_ctor, SetOutputLimits, SetControllerDirection, SetTunings,
    default_members.
  change (F32.geb (F32.of_Z 0) (F32.of_Z 255)) with false. cbv iota.
  destruct (F32.ltb Kp (F32.of_Z 0) || F32.ltb Ki (F32.of_Z 0)
            || F32.ltb Kd (F32.of_Z 0));
    destruct clk; members;
    cbv [Control_eqb Control_ord Z.eqb negb]; members; split; reflexivity.
Qed.

(** X6. However an object is constructed, and however it is used afterwards
    with numbers as limits, its limits are in strict order; so every value
    that [Compute] then writes to the output cell lies within the limits in
    force. *)
Theorem outputs_always_within_limits (raw : QuickPID) (i o sp : addr)
    (Kp Ki Kd : float) (pm : pMode) (dm : dMode) (aw : iAwMode) (act : Action)
    (clk : option tGetTimeMicros) (w0 : World) (evs : list Event)
    (now0 : Z) (w : World) :
  Forall numeric_limits evs ->
  let s0 := fst (QuickPID_ctor raw i o sp Kp Ki Kd pm dm aw act clk w0) in
  let s := fst (run evs s0 w0) in
  limits_ordered s
  /\ (fst (fst (Compute now0 s w)) = true ->
      in_range (outMin s) (outMax s)
        (load (snd (Compute now0 s w)) (myOutput s)) = true).
Proof.
  intros Hevs. cbv zeta.
  assert (Hinv : limits_ordered
            (fst (run evs
                    (fst (QuickPID_ctor raw i o sp Kp Ki Kd pm dm aw act clk w0))
                    w0))).
  { apply (run_invariant limits_ordered numeric_limits).
    - intros c s w1. apply do_call_limits_ordered.
    - exact Hevs.
    - destruct (ctor_limits raw i o sp Kp Ki Kd pm dm aw act clk w0) as [Hmin Hmax].
      unfold limits_ordered. rewrite Hmin, Hmax. reflexivity. }
  split; [exact Hinv|]. intros Hret.
  now apply (Compute_writes_in_range now0 _ w Hret (F32_ltb_leb _ _ Hinv)).
Qed.

Lemma outputs_always_within_limits_witness :
  let s0 := fst (QuickPID_ctor zero_storage p_in p_out p_set
                   (F32.of_Z 2) (F32.of_Z 5) (F32.of_Z 1)
                   pOnError dOnMeas iAwOff direct None scenario_world0) in
  let s := fst (run sample_history s0 scenario_world0) in
  limits_ordered s
  /\ (fst (fst (Compute 0 s windup_world)) = true ->
      in_range (outMin s) (outMax s)
        (load (snd (Compute 0 s windup_world)) (myOutput s)) = true).
Proof.
  apply (outputs_always_within_limits zero_storage p_in p_out p_set
           (F32.of_Z 2) (F32.of_Z 5) (F32.of_Z 1)
           pOnError dOnMeas iAwOff direct None scenario_world0
           sample_history 0 windup_world).
  unfold sample_history. repeat constructor.
Defined.

(** ** The working coefficients are never negative *)

Lemma guard_passed (Kp Ki Kd : float) :
  F32.ltb Kp (F32.of_Z 0) || F32.ltb Ki (F32.of_Z 0) || F32.ltb Kd (F32.of_Z 0)
  = false ->
  not_negative Kp /\ not_negative Ki /\ not_negative Kd.
Proof.
  unfold not_negative. intros H.
  apply orb_false_iff in H. destruct H as [H HKd].
  apply orb_false_iff in H. destruct H as [HKp HKi]. auto.
Qed.

Lemma SampleTimeSec_sign_clear (T : Z) :
  (0 < T)%Z -> sign_clear (F32.of_Z T / F32.of_Z 1000000) = true.
Proof.
  intros HT. apply div_sign_clear; apply of_Z_sign_clear; lia.
Qed.

Lemma SetTunings_gains_not_negative (Kp Ki Kd : float)
    (pm : pMode) (dm : dMode) (aw : iAwMode) (s : QuickPID) :
  gains_not_negative s -> gains_not_negative (SetTunings Kp Ki Kd pm dm aw s).
Proof.
  unfold gains_not_negative. intros (Hkp & Hki & Hkd & HT). unfold SetTunings.
  destruct (F32.ltb Kp (F32.of_Z 0) || F32.ltb Ki (F32.of_Z 0)
            || F32.ltb Kd (F32.of_Z 0)) eqn:G; [auto|].
  destruct (guard_passed Kp Ki Kd G) as (HKp & HKi & HKd).
  members. repeat split; auto.
  - apply mul_not_negative; [exact HKi | now apply SampleTimeSec_sign_clear].
  - apply div_not_negative; [exact HKd | now apply SampleTimeSec_sign_clear].
Qed.

Lemma do_call_gains_not_negative (c : Call) (s : QuickPID) (w : World) :
  gains_not_negative s -> gains_not_negative (fst (do_call c s w)).
Proof.
  intros Hs. destruct c; cbn [do_call fst].
  - unfold gains_not_negative in *. rewrite SetMode_unfold.
    destruct (Control_eqb (mode s) manual && negb (Control_eqb Mode manual));
      unfold Initialize; members; exact Hs.
  - unfold gains_not_negative in *.
    destruct (Compute_keeps now0 s w) as ((_ & (H1 & H2 & H3) & _ & HT) & _).
    rewrite H1, H2, H3, HT. exact Hs.
  - unfold gains_not_negative in *. step_call; auto.
  - now apply SetTunings_gains_not_negative.
  - now apply SetTunings_gains_not_negative.
  - unfold gains_not_negative in *. step_call; auto.
  - unfold gains_not_negative in *. destruct Hs as (Hkp & Hki & Hkd & HT).
    unfold SetSampleTimeUs.
    destruct (Z.ltb_spec 0 NewSampleTimeUs) as [Hpos | _]; [|auto].
    assert (Hr : sign_clear (F32.of_Z NewSampleTimeUs / F32.of_Z (sampleTimeUs s))
                 = true)
      by (apply div_sign_clear; apply of_Z_sign_clear; lia).
    members. repeat split; auto.
    + now apply mul_not_negative.
    + now apply div_not_negative.
  - unfold gains_not_negative in *. step_call; auto.
  - unfold gains_not_negative in *. step_call; auto.
  - unfold gains_not_negative in *. step_call; auto.
Qed.

Lemma ctor_gains_not_negative (raw : QuickPID) (i o sp : addr) (Kp Ki Kd : float)
    (pm : pMode) (dm : dMode) (aw : iAwMode) (act : Action)
    (clk : option tGetTimeMicros) (w : World) :
  not_negative Kp -> not_negative Ki -> not_negative Kd ->
  gains_not_negative (fst (QuickPID_ctor raw i o sp Kp Ki Kd pm dm aw act clk w)).
Proof.
  unfold not_negative. intros HKp HKi HKd. unfold gains_not_negative.
  unfold QuickPID_ctor, SetOutputLimits, SetControllerDirection, SetTunings,
    default_members.
  change (F32.geb (F32.of_Z 0) (F32.of_Z 255)) with false. cbv iota.
  rewrite HKp, HKi, HKd. cbn [orb].
  assert (HT : sign_clear (F32.of_Z 100000 / F32.of_Z 1000000) = true)
    by (apply SampleTimeSec_sign_clear; lia).
  destruct clk; members;
    cbv [Control_eqb Control_ord Z.eqb negb]; members;
    (repeat split;
     [exact HKp | now apply mul_not_negative | now apply div_not_negative]).
Qed.

(** X7. An object constructed with gains that are not below zero, and used
    in any way afterwards, never has a working coefficient [kp], [ki] or
    [kd] below zero, and its sample period stays positive. *)
Theorem coefficients_never_negative (raw : QuickPID) (i o sp : addr)
    (Kp Ki Kd : float) (pm : pMode) (dm : dMode) (aw : iAwMode) (act : Action)
    (clk : option tGetTimeMicros) (w0 : World) (evs : list Event) :
  not_negative Kp -> not_negative Ki -> not_negative Kd ->
  let s0 := fst (QuickPID_ctor raw i o sp Kp Ki Kd pm dm aw act clk w0) in
  let s := fst (run evs s0 w0) in
  not_negative (kp s) /\ not_negative (ki s) /\ not_negative (kd s)
  /\ (0 < sampleTimeUs s)%Z.
Proof.
  intros HKp HKi HKd. cbv zeta.
  apply (run_invariant gains_not_negative (fun _ => True)).
  - intros c s w1 _. apply do_call_gains_not_negative.
  - apply Forall_forall. auto.
  - now apply ctor_gains_not_negative.
Qed.

Lemma coefficients_never_negative_witness :
  let s0 := fst (QuickPID_ctor zero_storage p_in p_out p_set
                   (F32.of_Z 2) (F32.of_Z 5) (F32.of_Z 1)
                   pOnError dOnMeas iAwCondition direct None scenario_world0) in
  let s := fst (run sample_history s0 scenario_world0) in
  not_negative (kp s) /\ not_negative (ki s) /\ not_negative (kd s)
  /\ (0 < sampleTimeUs s)%Z.
Proof.
  apply (coefficients_never_negative zero_storage p_in p_out p_set
           (F32.of_Z 2) (F32.of_Z 5) (F32.of_Z 1)
           pOnError dOnMeas iAwCondition direct None scenario_world0
           sample_history); vm_compute; reflexivity.
Defined.

(** ** Two cycles in a row *)

(** X9. After a call of [Compute] that has computed, [lastInput] holds the
    input cell's value and [lastError] the error of that cycle.  So in the
    next cycle the error is taken from the cells of the moment, while
    [dInput] and [dError] are the changes of input and error between the
    two calls. *)
Theorem consecutive_cycles (now0 : Z) (s : QuickPID) (w w2 : World) :
  fst (fst (Compute now0 s w)) = true ->
  let s' := snd (fst (Compute now0 s w)) in
  lastInput s' = load w (myInput s)
  /\ lastError s' = cycle_error s w
  /\ error s' = cycle_error s w
  /\ cycle_error s' w2 = cycle_error s w2
  /\ cycle_dError s' w2 = cycle_error s w2 - cycle_error s w
  /\ cycle_dInput s' w2
     = (let d := load w2 (myInput s) - load w (myInput s) in
        if Action_eqb (action s) reverse then - d else d).
Proof.
  intros Hret. cbv zeta.
  destruct (Compute_keeps now0 s w)
    as (_ & (Hin & _ & Hsp) & (Hact & _) & _).
  assert (Hh : error (snd (fst (Compute now0 s w))) = cycle_error s w
               /\ lastError (snd (fst (Compute now0 s w))) = cycle_error s w
               /\ lastInput (snd (fst (Compute now0 s w))) = load w (myInput s)).
  { revert Hret.
    generalize (Compute_outcome now0 s w). generalize (Compute now0 s w).
    intros r [H | (now & s' & w' & Hc & H & _)]; subst r; cbn [fst snd];
      [discriminate|].
    intros _. pose proof (Compute_cycle_history now s w) as K.
    rewrite Hc in K. cbn [fst] in K. tauto. }
  destruct Hh as (He & Hle & Hli).
  assert (Herr : cycle_error (snd (fst (Compute now0 s w))) w2 = cycle_error s w2)
    by (unfold cycle_error, cycle_input; now rewrite Hin, Hsp, Hact).
  repeat split; try assumption.
  - unfold cycle_dError. now rewrite Herr, Hle.
  - unfold cycle_dInput, cycle_input. now rewrite Hin, Hact, Hli.
Qed.

Lemma consecutive_cycles_witness :
  let s' := snd (fst (Compute 0 scenario_state scenario_world)) in
  lastInput s' = F32.of_Z 10 /\ lastError s' = F32.of_Z 10
  /\ cycle_dError s' windup_world = F32.of_Z 190.
Proof.
  assert (Hret : fst (fst (Compute 0 scenario_state scenario_world)) = true)
    by (vm_compute; reflexivity).
  destruct (consecutive_cycles 0 scenario_state scenario_world windup_world Hret)
    as (Hli & Hle & _ & _ & Hd & _).
  cbv zeta. split; [|split].
  - rewrite Hli. vm_compute. reflexivity.
  - rewrite Hle. vm_compute. reflexivity.
  - rewrite Hd. vm_compute. reflexivity.
Defined.

(** ** The first cycle after activation *)

Lemma Compute_cycle_dTerm (now : Z) (s : QuickPID) (w : World) :
  dTerm (fst (Compute_cycle now s w))
  = match dmode s with
    | dOnError => kd s * cycle_dError s w
    | dOnMeas => - kd s * cycle_dInput s w
    end.
Proof.
  destruct s. destruct action0, pmode0, dmode0, iawmode0; run_cycle; reflexivity.
Qed.

Lemma Compute_timer (now0 : Z) (s : QuickPID) (w : World) :
  mode s = timer ->
  Compute now0 s w
  = (true, fst (Compute_cycle now0 s w), snd (Compute_cycle now0 s w)).
Proof.
  intros Hm. rewrite Compute_unfold. unfold read_clock. rewrite Hm. reflexivity.
Qed.

Lemma is_zero_opp (x : float) : is_zero (- x) = is_zero x.
Proof. destruct x; reflexivity. Qed.

Lemma is_finite_opp (x : float) : is_finite (- x) = is_finite x.
Proof. destruct x; reflexivity. Qed.

(** X10. No derivative kick on activation.  When a controller is activated
    in timer mode and the input cell still holds the same finite value at
    the first [Compute], the change of input seen by that cycle is a zero;
    with derivative on measurement and a finite [kd], the derivative term it
    stores is a zero, whatever the setpoint and [lastInput] were before. *)
Theorem no_derivative_kick_on_activation (now0 : Z) (s : QuickPID) (w w1 : World)
    (c : option tGetTimeMicros) :
  mode s = manual ->
  is_finite (load w (myInput s)) = true ->
  load w1 (myInput s) = load w (myInput s) ->
  let s1 := SetMode timer c s w in
  let s2 := snd (fst (Compute now0 s1 w1)) in
  fst (fst (Compute now0 s1 w1)) = true
  /\ is_zero (cycle_dInput s1 w1) = true
  /\ (dmode s = dOnMeas -> is_finite (kd s) = true ->
      is_zero (GetDterm s2) = true).
Proof.
  intros Hm Hfin Hsame. cbv zeta.
  assert (Hact : Control_eqb (mode s) manual && negb (Control_eqb timer manual)
                 = true) by (rewrite Hm; reflexivity).
  assert (Hs1 : mode (SetMode timer c s w) = timer
                /\ lastInput (SetMode timer c s w) = load w (myInput s)
                /\ myInput (SetMode timer c s w) = myInput s
                /\ action (SetMode timer c s w) = action s
                /\ dmode (SetMode timer c s w) = dmode s
                /\ kd (SetMode timer c s w) = kd s).
  { rewrite SetMode_unfold, Hact. unfold Initialize. members. repeat split. }
  destruct Hs1 as (Hmode & Hli & Hin & Haction & Hdm & Hkd).
  assert (Hd0 : is_zero (cycle_dInput (SetMode timer c s w) w1) = true).
  { unfold cycle_dInput, cycle_input. rewrite Hin, Hli, Haction, Hsame.
    rewrite (sub_diag _ Hfin). destruct (Action_eqb (action s) reverse); reflexivity. }
  rewrite (Compute_timer now0 _ w1 Hmode). cbn [fst snd].
  split; [reflexivity | split; [exact Hd0|]].
  intros Hdmode Hkfin. unfold GetDterm.
  rewrite Compute_cycle_dTerm, Hdm, Hdmode, Hkd.
  apply mul_zero_r; [now rewrite is_finite_opp | exact Hd0].
Qed.

Lemma no_derivative_kick_on_activation_witness :
  let s1 := SetMode timer None scenario_constructed scenario_world0 in
  let s2 := snd (fst (Compute 0 s1 windup_world)) in
  fst (fst (Compute 0 s1 windup_world)) = true
  /\ is_zero (cycle_dInput s1 windup_world) = true
  /\ is_zero (GetDterm s2) = true.
Proof.
  destruct (no_derivative_kick_on_activation 0 scenario_constructed
              scenario_world0 windup_world None)
    as (Hret & Hd & Hk); try reflexivity.
  cbv zeta. split; [exact Hret | split; [exact Hd|]].
  apply Hk; reflexivity.
Defined.

(** ** SetOutputLimits on an active controller *)


(** X11. [SetOutputLimits] with [Min < Max] stores the limits.  On an active
    controller it also saturates the output cell and the accumulator to them
    at once (each becomes the limit it was beyond, and stays what it was if
    inside), touching no other cell; in manual mode it leaves the cells and
    the accumulator as they are, even if they lie outside the new limits. *)
Theorem SetOutputLimits_reclamps (Min Max : float) (s : QuickPID) (w : World) :
  F32.ltb Min Max = true ->
  let s' := fst (SetOutputLimits Min Max s w) in
  let w' := snd (SetOutputLimits Min Max s w) in
  outMin s' = Min /\ outMax s' = Max
  /\ (mode s <> manual ->
      clamped Min Max (load w (myOutput s)) (load w' (myOutput s))
      /\ clamped Min Max (outputSum s) (outputSum s')
      /\ forall p, p <> myOutput s -> load w' p = load w p)
  /\ (mode s = manual -> w' = w /\ outputSum s' = outputSum s).
Proof.
  intros Hlt. cbv zeta. unfold SetOutputLimits.
  rewrite (F32_ltb_not_geb Min Max Hlt). members.
  destruct (Control_eqb (mode s) manual) eqn:Hm; cbn [negb fst snd]; members.
  - apply Control_eqb_eq in Hm.
    split; [reflexivity | split; [reflexivity | split]].
    + intros Hact. contradiction.
    + intros _. split; reflexivity.
  - apply Control_eqb_neq in Hm.
    split; [reflexivity | split; [reflexivity | split]].
    + intros _. split; [|split].
      * rewrite load_store_same. now apply CONSTRAIN_clamped.
      * now apply CONSTRAIN_clamped.
      * intros p Hp. now apply load_store_other.
    + intros Hman. contradiction.
Qed.

Lemma SetOutputLimits_reclamps_witness :
  (load (snd (SetOutputLimits (F32.of_Z 0) (F32.of_Z 5)
                scenario_state scenario_world)) p_out = F32.of_Z 5
   /\ outputSum (fst (SetOutputLimits (F32.of_Z 0) (F32.of_Z 5)
                        scenario_state scenario_world)) = F32.of_Z 5)
  /\ (load (snd (SetOutputLimits (F32.of_Z 20) (F32.of_Z 100)
                   scenario_state scenario_world)) p_out = F32.of_Z 20
      /\ outputSum (fst (SetOutputLimits (F32.of_Z 20) (F32.of_Z 100)
                           scenario_state scenario_world)) = F32.of_Z 20)
  /\ (load (snd (SetOutputLimits (F32.of_Z 0) (F32.of_Z 100)
                   scenario_state scenario_world)) p_out = F32.of_Z 10
      /\ outputSum (fst (SetOutputLimits (F32.of_Z 0) (F32.of_Z 100)
                           scenario_state scenario_world)) = F32.of_Z 10).
Proof.
  assert (Hact : mode scenario_state <> manual) by discriminate.
  split; [|split].
  - destruct (SetOutputLimits_reclamps (F32.of_Z 0) (F32.of_Z 5)
                scenario_state scenario_world)
      as (_ & _ & Hcl & _); [reflexivity|].
    destruct (Hcl Hact) as ((_ & _ & _ & Hout & _) & (_ & _ & _ & Hsum & _) & _).
    split; [apply Hout | apply Hsum]; reflexivity.
  - destruct (SetOutputLimits_reclamps (F32.of_Z 20) (F32.of_Z 100)
                scenario_state scenario_world)
      as (_ & _ & Hcl & _); [reflexivity|].
    destruct (Hcl Hact) as ((_ & Hout & _) & (_ & Hsum & _) & _).
    split; [apply Hout | apply Hsum]; reflexivity.
  - destruct (SetOutputLimits_reclamps (F32.of_Z 0) (F32.of_Z 100)
                scenario_state scenario_world)
      as (_ & _ & Hcl & _); [reflexivity|].
    destruct (Hcl Hact) as ((_ & _ & Hout & _) & (_ & _ & Hsum & _) & _).
    split; [apply Hout | apply Hsum]; reflexivity.
Defined.

(** ** Construction *)

(** X12. The constructor leaves the object in manual mode, linked to the
    three cells it was given, with the action and the clock it was given,
    limits 0 and 255 and a period of 100000 microseconds; it writes no cell.
    With gains that are not below zero it stores them, scaled for a period
    of 0.1 s, and the three selections.  With a gain below zero it stores
    neither gains nor selections: the display gains are 0, the selections
    are the defaults of the class, and [kp], [ki], [kd] are whatever the
    storage held. *)
Theorem constructor_postcondition (raw : QuickPID) (i o sp : addr)
    (Kp Ki Kd : float) (pm : pMode) (dm : dMode) (aw : iAwMode) (act : Action)
    (clk : option tGetTimeMicros) (w : World) :
  let s := fst (QuickPID_ctor raw i o sp Kp Ki Kd pm dm aw act clk w) in
  let T := F32.of_Z 100000 / F32.of_Z 1000000 in
  snd (QuickPID_ctor raw i o sp Kp Ki Kd pm dm aw act clk w) = w
  /\ mode s = manual /\ action s = act /\ _getMicros s = clk
  /\ myInput s = i /\ myOutput s = o /\ mySetpoint s = sp
  /\ outMin s = F32.of_Z 0 /\ outMax s = F32.of_Z 255
  /\ sampleTimeUs s = 100000%Z
  /\ (if (Kp <? F32.of_Z 0) || (Ki <? F32.of_Z 0) || (Kd <? F32.of_Z 0)
      then GetKp s = F32.of_Z 0 /\ GetKi s = F32.of_Z 0 /\ GetKd s = F32.of_Z 0
           /\ pmode s = pOnError /\ dmode s = dOnMeas /\ iawmode s = iAwCondition
           /\ kp s = kp raw /\ ki s = ki raw /\ kd s = kd raw
      else GetKp s = Kp /\ GetKi s = Ki /\ GetKd s = Kd
           /\ pmode s = pm /\ dmode s = dm /\ iawmode s = aw
           /\ kp s = Kp /\ ki s = Ki * T /\ kd s = Kd / T).
Proof.
  cbv zeta.
  unfold QuickPID_ctor, SetOutputLimits, SetControllerDirection, SetTunings,
    default_members, GetKp, GetKi, GetKd.
  change (F32.geb (F32.of_Z 0) (F32.of_Z 255)) with false. cbv iota.
  destruct (F32.ltb Kp (F32.of_Z 0) || F32.ltb Ki (F32.of_Z 0)
            || F32.ltb Kd (F32.of_Z 0));
    destruct clk; members;
    cbv [Control_eqb Control_ord Z.eqb negb]; members; repeat split.
Qed.

(** X13. The constructor with gains and action builds the same object as the
    full constructor called with proportional on error, derivative on
    measurement, conditional anti-windup and no clock. *)
Theorem ctor_action_defaults (raw : QuickPID) (i o sp : addr)
    (Kp Ki Kd : float) (act : Action) (w : World) :
  QuickPID_ctor_action raw i o sp Kp Ki Kd act w
  = QuickPID_ctor raw i o sp Kp Ki Kd pOnError dOnMeas iAwCondition act None w.
Proof.
  unfold QuickPID_ctor_action. members.
  unfold QuickPID_ctor, SetOutputLimits, SetControllerDirection, SetTunings,
    default_members.
  change (F32.geb (F32.of_Z 0) (F32.of_Z 255)) with false. cbv iota.
  destruct (F32.ltb Kp (F32.of_Z 0) || F32.ltb Ki (F32.of_Z 0)
            || F32.ltb Kd (F32.of_Z 0));
    members; cbv [Control_eqb Control_ord Z.eqb negb]; members;
    destruct raw; reflexivity.
Qed.

(** X14. The simplified constructor takes its gains from the members
    [dispKp], [dispKi], [dispKd] as the storage held them before
    construction, not from their declared initial value 0: the object it
    builds is the one the full constructor builds from those three values
    with the default selections, direct action and no clock. *)
Theorem ctor_links_gains_from_storage (raw : QuickPID) (i o sp : addr) (w : World) :
  QuickPID_ctor_links raw i o sp w
  = QuickPID_ctor raw i o sp (dispKp raw) (dispKi raw) (dispKd raw)
      pOnError dOnMeas iAwCondition direct None w.
Proof.
  unfold QuickPID_ctor_links. members.
  unfold QuickPID_ctor, SetOutputLimits, SetControllerDirection, SetTunings,
    default_members.
  change (F32.geb (F32.of_Z 0) (F32.of_Z 255)) with false. cbv iota.
  destruct (F32.ltb (dispKp raw) (F32.of_Z 0) || F32.ltb (dispKi raw) (F32.of_Z 0)
            || F32.ltb (dispKd raw) (F32.of_Z 0));
    members; cbv [Control_eqb Control_ord Z.eqb negb]; members;
    destruct raw; reflexivity.
Qed.

(** ** NaN arguments *)




Lemma mul_nan_l (x : float) : S754_nan * x = S754_nan.
Proof. reflexivity. Qed.








(** ** Repeated and on-the-fly calls *)

(** X17. Calling [SetMode] again with the mode the controller is already in
    changes nothing, whatever the cells hold by then: an active controller
    is not initialized anew, so its accumulator and [lastInput] survive. *)
Theorem SetMode_repeated (Mode : Control) (c1 c2 : option tGetTimeMicros)
    (s : QuickPID) (w w2 : World) :
  SetMode Mode c2 (SetMode Mode c1 s w) w2 = SetMode Mode c1 s w.
Proof.
  rewrite (SetMode_unfold Mode c2).
  destruct (SetMode_members Mode c1 s w) as (Hm & _). cbv zeta in Hm.
  rewrite Hm.
  replace (Control_eqb Mode manual && negb (Control_eqb Mode manual)) with false
    by (destruct Mode; reflexivity).
  rewrite SetMode_unfold.
  destruct (Control_eqb (mode s) manual && negb (Control_eqb Mode manual));
    [unfold Initialize|]; destruct s; reflexivity.
Qed.

(** X18. Retuning on the fly: [SetTunings], accepted or not, never touches
    the accumulator, the history, the stored terms, the limits, the period,
    the mode, the action, the links or the clock; the overload without
    selections keeps the three selections as well. *)
Theorem SetTunings_keeps_state (Kp Ki Kd : float) (pm : pMode) (dm : dMode)
    (aw : iAwMode) (s : QuickPID) :
  (let s' := SetTunings Kp Ki Kd pm dm aw s in
   outputSum s' = outputSum s /\ lastError s' = lastError s
   /\ lastInput s' = lastInput s /\ lastTime s' = lastTime s
   /\ error s' = error s /\ same_terms s s' /\ same_limits s s'
   /\ sampleTimeUs s' = sampleTimeUs s /\ mode s' = mode s
   /\ action s' = action s /\ same_links s s' /\ _getMicros s' = _getMicros s)
  /\ (let s' := SetTunings_gains Kp Ki Kd s in
      outputSum s' = outputSum s /\ lastError s' = lastError s
      /\ lastInput s' = lastInput s /\ lastTime s' = lastTime s
      /\ error s' = error s /\ same_terms s s' /\ same_limits s s'
      /\ sampleTimeUs s' = sampleTimeUs s /\ mode s' = mode s
      /\ same_selections s s' /\ same_links s s'
      /\ _getMicros s' = _getMicros s).
Proof.
  cbv zeta. unfold SetTunings_gains, SetTunings, same_terms, same_limits,
    same_links, same_selections.
  destruct (F32.ltb Kp (F32.of_Z 0) || F32.ltb Ki (F32.of_Z 0)
            || F32.ltb Kd (F32.of_Z 0)); members; repeat split.
Qed.

(** ** What the controller writes *)

(** X19. Whatever member function is called, the links stay as they are and
    of the caller's cells only the output cell can change (the input and
    the setpoint cell are only read, unless one of them is the output cell);
    the tick counter is not touched; and in manual mode no call writes any
    cell at all. *)
Theorem only_the_output_cell_is_written (c : Call) (s : QuickPID) (w : World) :
  let s' := fst (do_call c s w) in
  let w' := snd (do_call c s w) in
  same_links s s'
  /\ (forall p, p <> myOutput s -> load w' p = load w p)
  /\ ticks w' = ticks w
  /\ (mode s = manual -> w' = w).
Proof.
  cbv zeta. destruct (same_members_refl s) as (_ & Hl & _).
  destruct c; cbn [do_call fst snd].
  - split; [|repeat split].
    rewrite SetMode_unfold. unfold same_links.
    destruct (Control_eqb (mode s) manual && negb (Control_eqb Mode manual));
      [unfold Initialize|]; members; repeat split.
  - destruct (Compute_keeps now0 s w) as (_ & Hlinks & _ & _ & _ & Hcells & Ht).
    split; [exact Hlinks | split; [exact Hcells | split; [exact Ht|]]].
    intros Hm. unfold Compute. rewrite Hm. reflexivity.
  - unfold SetOutputLimits, same_links.
    destruct (F32.geb Min Max); [repeat split|].
    members. destruct (Control_eqb (mode s) manual) eqn:Hm; cbn [negb fst snd];
      members.
    + repeat split.
    + split; [repeat split | split; [|split; [reflexivity|]]].
      * intros p Hp. now apply load_store_other.
      * intros Hman. rewrite Hman in Hm. discriminate Hm.
  - unfold same_links. step_call; repeat split.
  - unfold same_links. step_call; repeat split.
  - unfold same_links. step_call; repeat split.
  - unfold same_links. step_call; repeat split.
  - unfold same_links. step_call; repeat split.
  - unfold same_links. step_call; repeat split.
  - unfold same_links. step_call; repeat split.
Qed.
